(** * Order processing core of the ERP sales application

    A shallow embedding of the cart arithmetic of [src/pages/Sales.tsx]
    (totals, line edits, the discount modal, the discount gate, payment
    validation) and of the stock ledger of the backend service
    ([completeSale] and [cancelSale]), with the properties the
    specification states about them.

    Numbers.  A JavaScript [number] is a binary64 double, and the code
    is read in two ways.  In the main embedding a number is an exact
    rational ([Q]); what is stated there is what the code's own
    expressions, comparisons and writes are, and bounds that rounding
    preserves, with [==] between computed amounts.  A number that is
    missing or not-a-number is represented there by [0]: the modelled
    code inspects such values only through truthiness tests ([!x],
    [x || y], [if (x)]), which do not tell them apart from zero.  Where
    a statement depends on how the amounts are rounded (the threshold
    of the discount gate, the exactness of a sum), the code is read on
    binary64 floating-point numbers, in [Module Double].

    Store.  The two tables of the backend are finite maps keyed by the
    row identifier.  A request either finds its row or not; transport
    failures of the store are not modelled. *)

From Stdlib Require Import QArith Qminmax Qabs Lqa Lia.
From Stdlib Require Import Floats.
From stdpp Require Import base option list gmap strings.

Local Open Scope Q_scope.

(** ** JavaScript numbers *)

(** [a < b] and [a > b] on numbers. *)
Definition Qltb (a b : Q) : bool := negb (Qle_bool b a).

(** Truthiness of a number: everything but zero. *)
Definition truthy (x : Q) : bool := negb (Qeq_bool x 0).

(** [a || b] on numbers. *)
Definition js_or (a b : Q) : Q := if truthy a then a else b.



(** ** Data model ([src/types.ts]) *)

Inductive SaleStatus := PENDING | COMPLETED | CANCELLED | BUDGET.

#[global] Instance SaleStatus_eq_dec : EqDecision SaleStatus.
Proof. solve_decision. Defined.

(** Fields that no modelled function reads (descriptions, categories,
    client data) are left out of the records. *)
Module Product.
Record t := mk {
  id : string;
  code : string;
  name : string;
  price : Q;
  stock : Q;
  unit : string;
  active : bool
}.
(** The row after [update({ stock: s })]. *)
Definition with_stock (s : Q) (p : t) : t :=
  mk (id p) (code p) (name p) (price p) s (unit p) (active p).
End Product.

Module SaleItem.
Record t := mk {
  productId : string;
  productCode : string;
  productName : string;
  quantity : Q;
  unitPrice : Q;
  originalPrice : Q;
  total : Q;
  unit : string;
  observation : string
}.
End SaleItem.

Module PaymentDetails.
Record t := mk {
  cash : Q;
  debit : Q;
  credit : Q;
  pix : Q;
  boleto : Q;
  creditStore : Q;
  ticket : Q;
  transfer : Q;
  cheque : Q
}.
(** [Object.values(payments)], in the insertion order of the object. *)
Definition values (p : t) : list Q :=
  [cash p; debit p; credit p; pix p; boleto p; creditStore p; ticket p;
   transfer p; cheque p].
Definition empty : t := mk 0 0 0 0 0 0 0 0 0.
End PaymentDetails.

Module Sale.
Record t := mk {
  id : string;
  sellerId : string;
  sellerName : string;
  cashierId : option string;
  cashierName : option string;
  items : list SaleItem.t;
  totalValue : Q;
  status : SaleStatus;
  finishedAt : option string;
  discount : Q;
  freight : Q;
  otherCosts : Q;
  payments : PaymentDetails.t
}.
End Sale.

(** ** Pricing engine ([Sales.tsx], "CALCULATIONS") *)

(** [arr.reduce((acc, x) => acc + f(x), 0)]. *)
Definition reduce_sum {A : Type} (f : A -> Q) (l : list A) : Q :=
  fold_left (fun acc x => acc + f x) l 0.

Definition subTotal (cart : list SaleItem.t) : Q :=
  reduce_sum SaleItem.total cart.

Definition totalGeneral (cart : list SaleItem.t) (posDiscount posFreight posOther : Q) : Q :=
  Qmax 0 (subTotal cart - posDiscount + posFreight + posOther).

Definition totalPaid (payments : PaymentDetails.t) : Q :=
  reduce_sum (fun v => v) (PaymentDetails.values payments).

Definition remaining (cart : list SaleItem.t) (d f o : Q) (payments : PaymentDetails.t) : Q :=
  Qmax 0 (totalGeneral cart d f o - totalPaid payments).

(** The sum of a family of amounts, as the specification writes it. *)
Fixpoint sigma {A : Type} (f : A -> Q) (l : list A) : Q :=
  match l with
  | [] => 0
  | x :: l' => f x + sigma f l'
  end.


(** ** User-visible messages

    A handler that calls [toast.error] or [toast.info] is modelled as
    returning the message; a backend function that throws returns the
    error.  The constructors carry the amounts the texts interpolate. *)

Inductive Message :=
| MsgSelectProduct
| MsgInsufficientStock (available : Q)
| MsgRevertedToOriginal
| MsgAdjustedToLimit
| MsgDiscountNeedsToken (finalPercent : Q)
| MsgEmptyCart
| MsgNoPaymentMethod
| MsgPaymentShort (diff : Q)
| MsgPaymentOver (diff : Q).

(** Errors thrown by the backend service: sale not found, sale already
    completed, insufficient stock on the server. *)
Inductive BackendError :=
| SaleNotFound
| SaleAlreadyCompleted
| InsufficientStock.

(** ** Cart handlers ([Sales.tsx]) *)

(** [cart.filter(i => i.productId === id).reduce((acc, i) => acc + i.quantity, 0)] *)
Definition currentInCart (cart : list SaleItem.t) (pid : string) : Q :=
  reduce_sum SaleItem.quantity
    (filter (fun i => SaleItem.productId i = pid) cart).

(** [handleAddItem]: the new cart, or the cart as it was with the error
    shown.  Resetting the input fields is not modelled. *)
Definition handleAddItem (isCashierConfirming : bool)
    (selectedProduct : option Product.t) (itemQty itemPrice : Q)
    (cart : list SaleItem.t) : list SaleItem.t * option Message :=
  if isCashierConfirming then (cart, None)
  else match selectedProduct with
  | None => (cart, Some MsgSelectProduct)
  | Some p =>
    if Qltb (Product.stock p) (currentInCart cart (Product.id p) + itemQty)
    then (cart, Some (MsgInsufficientStock (Product.stock p)))
    else
      let newItem :=
        SaleItem.mk (Product.id p) (Product.code p) (Product.name p)
          itemQty itemPrice (Product.price p) (itemPrice * itemQty)
          (if decide (Product.unit p = "") then "UNID" else Product.unit p)
          "" in
      (cart ++ [newItem], None)
  end.

(** [handleRemoveItem]: [prev.filter((_, i) => i !== idx)]. *)
Definition handleRemoveItem (idx : nat) (cart : list SaleItem.t) : list SaleItem.t :=
  delete idx cart.

(** What [saveEditItem] does to the cart.  [EditSparse] stands for an
    index past the end of the cart, where the JavaScript assignment
    would leave holes in the array; the edit modal is only ever opened
    on a displayed line, and carts with holes are not modelled. *)
Inductive EditResult :=
| EditIgnored
| EditSaved (cart : list SaleItem.t) (notices : list Message)
| EditSparse.

(** [saveEditItem].  [editItemData] is the line as the modal holds it:
    a copy of the cart line in which the operator retyped price,
    quantity or observation. *)
Definition saveEditItem (cart : list SaleItem.t) (editItemIndex : option nat)
    (editItemData : SaleItem.t) : EditResult :=
  match editItemIndex with
  | None => EditIgnored
  | Some idx =>
    if truthy (SaleItem.quantity editItemData) then
      let original :=
        js_or (js_or (SaleItem.originalPrice editItemData)
                     (SaleItem.unitPrice editItemData)) 0 in
      let finalPrice0 := SaleItem.unitPrice editItemData in
      let revert := negb (truthy finalPrice0) || Qeq_bool finalPrice0 0 in
      let finalPrice1 := if revert then original else finalPrice0 in
      let minAllowedPrice := original * 0.94 in
      let clamp := Qltb finalPrice1 minAllowedPrice in
      let finalPrice := if clamp then minAllowedPrice else finalPrice1 in
      let notices :=
        (if revert then [MsgRevertedToOriginal] else []) ++
        (if clamp then [MsgAdjustedToLimit] else []) in
      let newItem :=
        SaleItem.mk (SaleItem.productId editItemData)
          (SaleItem.productCode editItemData)
          (SaleItem.productName editItemData)
          (SaleItem.quantity editItemData)
          finalPrice
          (SaleItem.originalPrice editItemData)
          (js_or (SaleItem.quantity editItemData) 0 * js_or finalPrice 0)
          (SaleItem.unit editItemData)
          (SaleItem.observation editItemData) in
      if decide (idx < length cart)%nat then
        EditSaved (<[idx := newItem]> cart) notices
      else if decide (idx = length cart) then
        EditSaved (cart ++ [newItem]) notices
      else EditSparse
    else EditIgnored
  end.

(** ** Discount modal ([Sales.tsx]) *)

Definition totalOriginalValue (cart : list SaleItem.t) : Q :=
  reduce_sum
    (fun item => SaleItem.quantity item *
                 js_or (SaleItem.originalPrice item) (SaleItem.unitPrice item))
    cart.

(** The combined percentage (line-level plus global discount) for a
    global discount [val]; the four handlers that need it each spell
    out this same computation. *)
Definition effectivePercent (cart : list SaleItem.t) (val : Q) : Q :=
  let totalOriginalValue := totalOriginalValue cart in
  let currentSubTotal := subTotal cart in
  let discountFromItems := totalOriginalValue - currentSubTotal in
  let totalDiscount := discountFromItems + val in
  if Qltb 0 totalOriginalValue
  then (totalDiscount / totalOriginalValue) * 100
  else 0.

(** The state of the discount modal.  The token is the sequence of its
    UTF-16 code units, which is what [discountToken.length] counts. *)
Record DiscountModal := mkDiscountModal {
  discountModalOpen : bool;
  tempDiscountValue : Q;
  tempDiscountPercent : Q;
  discountToken : list N
}.

Definition openDiscountModal (isCashierConfirming : bool)
    (cart : list SaleItem.t) (posDiscount : Q) (m : DiscountModal) : DiscountModal :=
  if isCashierConfirming then m
  else mkDiscountModal true posDiscount (effectivePercent cart posDiscount) [].

Definition handleDiscountValueChange (cart : list SaleItem.t) (val : Q)
    (m : DiscountModal) : DiscountModal :=
  mkDiscountModal (discountModalOpen m) val (effectivePercent cart val)
    (discountToken m).

Definition handleDiscountPercentChange (cart : list SaleItem.t) (pct : Q)
    (m : DiscountModal) : DiscountModal :=
  let totalOriginalValue := totalOriginalValue cart in
  let currentSubTotal := subTotal cart in
  let discountFromItems := totalOriginalValue - currentSubTotal in
  let targetTotalDiscount := (totalOriginalValue * pct) / 100 in
  let neededGlobalDiscount := Qmax 0 (targetTotalDiscount - discountFromItems) in
  mkDiscountModal (discountModalOpen m) neededGlobalDiscount pct
    (discountToken m).

Definition handleDiscountTotalChange (cart : list SaleItem.t)
    (totalComDesconto : Q) (m : DiscountModal) : DiscountModal :=
  let currentSubTotal := subTotal cart in
  let newGlobalDiscount := Qmax 0 (currentSubTotal - totalComDesconto) in
  mkDiscountModal (discountModalOpen m) newGlobalDiscount
    (effectivePercent cart newGlobalDiscount) (discountToken m).

(** The third view of the modal, as its input field shows it:
    [subTotal - tempDiscountValue]. *)
Definition totalComDescontoView (cart : list SaleItem.t) (m : DiscountModal) : Q :=
  subTotal cart - tempDiscountValue m.

(** [confirmDiscount]: the order discount and the modal afterwards, and
    the error shown if the gate refuses. *)
Definition confirmDiscount (cart : list SaleItem.t) (posDiscount : Q)
    (m : DiscountModal) : Q * DiscountModal * option Message :=
  let finalPercent := effectivePercent cart (tempDiscountValue m) in
  if Qltb 6 finalPercent && bool_decide (length (discountToken m) < 3)%nat
  then (posDiscount, m, Some (MsgDiscountNeedsToken finalPercent))
  else (tempDiscountValue m,
        mkDiscountModal false (tempDiscountValue m) (tempDiscountPercent m)
          (discountToken m),
        None).

(** ** Submission ([handleSubmitSale]) *)

(** The payload handed to [createSale] or [updateSale]. *)
Record SalePayload := mkSalePayload {
  pl_items : list SaleItem.t;
  pl_discount : Q;
  pl_freight : Q;
  pl_otherCosts : Q;
  pl_payments : PaymentDetails.t;
  pl_totalValue : Q;
  pl_status : SaleStatus
}.

Definition handleSubmitSale (cart : list SaleItem.t)
    (posDiscount posFreight posOther : Q) (payments : PaymentDetails.t)
    (asBudget : bool) : Message + SalePayload :=
  let totalGeneral := totalGeneral cart posDiscount posFreight posOther in
  let salePayload :=
    mkSalePayload cart posDiscount posFreight posOther payments totalGeneral
      (if asBudget then BUDGET else PENDING) in
  if decide (length cart = 0%nat) then inl MsgEmptyCart
  else if negb asBudget then
    let currentTotalPaid := totalPaid payments in
    if Qltb 0 totalGeneral then
      if Qeq_bool currentTotalPaid 0 then inl MsgNoPaymentMethod
      else if Qltb 0.05 (Qabs (currentTotalPaid - totalGeneral)) then
        let diff := totalGeneral - currentTotalPaid in
        if Qltb 0 diff then inl (MsgPaymentShort diff)
        else inl (MsgPaymentOver (Qabs diff))
      else inr salePayload
    else inr salePayload
  else inr salePayload.

(** ** Backend service: the store and the stock ledger *)

Record Store := mkStore {
  products : gmap string Product.t;
  sales : gmap string Sale.t
}.

(** The discount distribution of [completeSale]: the line list and the
    discount that the completed sale is written with. *)
Definition distribute (factor : Q) (item : SaleItem.t) : SaleItem.t :=
  let netUnitPrice := SaleItem.unitPrice item * factor in
  SaleItem.mk (SaleItem.productId item) (SaleItem.productCode item)
    (SaleItem.productName item) (SaleItem.quantity item)
    netUnitPrice (SaleItem.originalPrice item)
    (netUnitPrice * SaleItem.quantity item)
    (SaleItem.unit item) (SaleItem.observation item).

Definition finalItems (sale : Sale.t) : list SaleItem.t :=
  if truthy (Sale.discount sale) && Qltb 0 (Sale.discount sale) then
    let subTotal := reduce_sum SaleItem.total (Sale.items sale) in
    if Qltb 0 subTotal then
      let factor := (subTotal - Sale.discount sale) / subTotal in
      map (distribute factor) (Sale.items sale)
    else Sale.items sale
  else Sale.items sale.

Definition finalDiscount (sale : Sale.t) : Q :=
  if truthy (Sale.discount sale) && Qltb 0 (Sale.discount sale) then
    let subTotal := reduce_sum SaleItem.total (Sale.items sale) in
    if Qltb 0 subTotal then 0 else Sale.discount sale
  else Sale.discount sale.

(** The stock loop of [completeSale]: one read and one write per line,
    in line order.  A failing line stops the loop; the writes made for
    the lines before it stay. *)
Fixpoint decrementStock (prods : gmap string Product.t)
    (items : list SaleItem.t) : gmap string Product.t * option BackendError :=
  match items with
  | [] => (prods, None)
  | item :: rest =>
    match prods !! SaleItem.productId item with
    | Some prod =>
      if Qltb (Product.stock prod) (SaleItem.quantity item)
      then (prods, Some InsufficientStock)
      else decrementStock
             (<[SaleItem.productId item :=
                  Product.with_stock
                    (Product.stock prod - SaleItem.quantity item) prod]> prods)
             rest
    | None => decrementStock prods rest
    end
  end.

(** The orders the cashier tab offers for completion:
    [sales.filter(s => s.status === SaleStatus.PENDING)]. *)
Definition cashierQueue (all : list Sale.t) : list Sale.t :=
  filter (fun s => Sale.status s = PENDING) all.

(** [completeSale]; [now] is the completion timestamp. *)
Definition completeSale (st : Store) (saleId cashierId cashierName now : string)
    : Store * (BackendError + Sale.t) :=
  match sales st !! saleId with
  | None => (st, inl SaleNotFound)
  | Some sale =>
    if decide (Sale.status sale = COMPLETED) then (st, inl SaleAlreadyCompleted)
    else
      match decrementStock (products st) (finalItems sale) with
      | (prods, Some e) => (mkStore prods (sales st), inl e)
      | (prods, None) =>
        let updatedSale :=
          Sale.mk (Sale.id sale) (Sale.sellerId sale) (Sale.sellerName sale)
            (Some cashierId) (Some cashierName) (finalItems sale)
            (Sale.totalValue sale) COMPLETED (Some now) (finalDiscount sale)
            (Sale.freight sale) (Sale.otherCosts sale) (Sale.payments sale) in
        (mkStore prods (<[saleId := updatedSale]> (sales st)), inr updatedSale)
      end
  end.

(** The stock loop of [cancelSale]. *)
Fixpoint restoreStock (prods : gmap string Product.t)
    (items : list SaleItem.t) : gmap string Product.t :=
  match items with
  | [] => prods
  | item :: rest =>
    match prods !! SaleItem.productId item with
    | Some prod =>
      restoreStock
        (<[SaleItem.productId item :=
             Product.with_stock
               (Product.stock prod + SaleItem.quantity item) prod]> prods)
        rest
    | None => restoreStock prods rest
    end
  end.

Definition cancelSale (st : Store) (saleId : string)
    : Store * (BackendError + Sale.t) :=
  match sales st !! saleId with
  | None => (st, inl SaleNotFound)
  | Some sale =>
    let prods :=
      if decide (Sale.status sale = COMPLETED)
      then restoreStock (products st) (Sale.items sale)
      else products st in
    let updatedSale :=
      Sale.mk (Sale.id sale) (Sale.sellerId sale) (Sale.sellerName sale)
        (Sale.cashierId sale) (Sale.cashierName sale) (Sale.items sale)
        (Sale.totalValue sale) CANCELLED (Sale.finishedAt sale)
        (Sale.discount sale) (Sale.freight sale) (Sale.otherCosts sale)
        (Sale.payments sale) in
    (mkStore prods (<[saleId := updatedSale]> (sales st)), inr updatedSale)
  end.

(** ** Vocabulary of the properties *)

(** Every line the cart handlers build has [total = unitPrice × quantity]. *)
Definition line_consistent (item : SaleItem.t) : Prop :=
  SaleItem.total item == SaleItem.unitPrice item * SaleItem.quantity item.

(** Two modal states show the same triple (amount, percentage, total
    to pay). *)
Definition same_views (cart : list SaleItem.t) (m1 m2 : DiscountModal) : Prop :=
  tempDiscountValue m1 == tempDiscountValue m2 /\
  tempDiscountPercent m1 == tempDiscountPercent m2 /\
  totalComDescontoView cart m1 == totalComDescontoView cart m2.

(** Feeding each displayed value back through its own handler changes
    nothing. *)
Definition views_stable (cart : list SaleItem.t) (m : DiscountModal) : Prop :=
  same_views cart (handleDiscountValueChange cart (tempDiscountValue m) m) m /\
  same_views cart (handleDiscountPercentChange cart (tempDiscountPercent m) m) m /\
  same_views cart (handleDiscountTotalChange cart (totalComDescontoView cart m) m) m.

(** The quantity that the lines of an order hold of one product. *)
Definition lineQuantity (pid : string) (items : list SaleItem.t) : Q :=
  sigma SaleItem.quantity (filter (fun i => SaleItem.productId i = pid) items).

(** [after] has the rows of [before], each with its stock moved by
    [delta] and nothing else changed. *)
Definition stock_shifted (delta : string -> Q)
    (before after : gmap string Product.t) : Prop :=
  forall pid,
    match before !! pid, after !! pid with
    | Some p, Some p' =>
      Product.stock p' == Product.stock p + delta pid /\
      Product.with_stock 0 p' = Product.with_stock 0 p
    | None, None => True
    | _, _ => False
    end.

Definition stock_nonneg (prods : gmap string Product.t) : Prop :=
  forall pid p, prods !! pid = Some p -> 0 <= Product.stock p.

(** The sale a backend call returned, if it did not throw. *)
Definition returned (r : BackendError + Sale.t) : option Sale.t :=
  match r with
  | inr sale => Some sale
  | inl _ => None
  end.

(** ** Sample carts and stores *)

(** The token [mgr1], in UTF-16 code units. *)
Definition token_mgr1 : list N := [109; 103; 114; 49]%N.

Definition cart_10pct : list SaleItem.t :=
  [SaleItem.mk "p1" "001" "Widget" 3 10 10 30 "UNID" ""].

Definition line_100 : SaleItem.t :=
  SaleItem.mk "p2" "002" "Gadget" 1 100 100 100 "UNID" "".

Definition line_100_at (price : Q) : SaleItem.t :=
  SaleItem.mk "p2" "002" "Gadget" 2 price 100 100 "UNID" "".

(** A line with a 5% line-level discount. *)
Definition cart_line_discount : list SaleItem.t :=
  [SaleItem.mk "p2" "002" "Gadget" 1 95 100 95 "UNID" ""].

(** A store with one product and orders in each status. *)
Definition widget : Product.t := Product.mk "p1" "001" "Widget" 10 5 "UNID" true.

Definition order_in (status : SaleStatus) (id : string) (discount : Q) : Sale.t :=
  Sale.mk id "u1" "Seller" None None cart_10pct 30 status None discount 0 0
    (PaymentDetails.mk 30 0 0 0 0 0 0 0 0).

Definition store0 : Store :=
  mkStore {[ "p1" := widget ]}
    (<["s1" := order_in PENDING "s1" 3]>
       (<["s2" := order_in COMPLETED "s2" 0]>
          (<["s3" := order_in BUDGET "s3" 0]>
             {[ "s4" := order_in CANCELLED "s4" 0 ]}))).

(** An order for a product that the table does not have. *)
Definition ghost_line : SaleItem.t :=
  SaleItem.mk "gone" "404" "Removed" 7 2 2 14 "UNID" "".

Definition store_ghost : Store :=
  mkStore {[ "p1" := widget ]}
    (<["g1" := Sale.mk "g1" "u1" "Seller" None None (ghost_line :: cart_10pct)
                 44 PENDING None 0 0 0 PaymentDetails.empty]>
       {[ "g2" := Sale.mk "g2" "u1" "Seller" None None [ghost_line]
                    14 COMPLETED None 0 0 0 PaymentDetails.empty ]}).

(** ** Money input ([parseMoney]) *)

Definition is_digit (c : Ascii.ascii) : bool :=
  (48 <=? Ascii.nat_of_ascii c)%nat && (Ascii.nat_of_ascii c <=? 57)%nat.

Definition digit_value (c : Ascii.ascii) : Z := Z.of_nat (Ascii.nat_of_ascii c - 48).

(** [value.replace(/\D/g, "")]: the decimal digits of the text. *)
Fixpoint digits_of (value : string) : string :=
  match value with
  | EmptyString => EmptyString
  | String c rest =>
    if is_digit c then String c (digits_of rest) else digits_of rest
  end.

(** [parseInt] on a string of decimal digits, most significant first.
    The precision a double loses on very long digit strings is outside
    the model. *)
Fixpoint parseInt_from (acc : Z) (digits : string) : Z :=
  match digits with
  | EmptyString => acc
  | String c rest => parseInt_from (10 * acc + digit_value c) rest
  end.

Definition parseInt (digits : string) : Z := parseInt_from 0 digits.

Definition parseMoney (value : string) : Q :=
  let digits := digits_of value in
  inject_Z (parseInt (if decide (digits = "") then "0" else digits)) / 100.

(** ** Payment buckets ([handlePaymentChange], [handlePaymentKeyDown]) *)

(** [keyof PaymentDetails]. *)
Inductive PaymentKey :=
| Kcash | Kdebit | Kcredit | Kpix | Kboleto | KcreditStore | Kticket
| Ktransfer | Kcheque.

#[global] Instance PaymentKey_eq_dec : EqDecision PaymentKey.
Proof. solve_decision. Defined.




(** ** Opening the edit modal ([openEditModal]) *)

(** The copy of a line that does not exist: every field missing. *)
Definition noItem : SaleItem.t := SaleItem.mk "" "" "" 0 0 0 0 "" "".

(** [openEditModal]: the index and the copy [{ ...cart[idx] }] that the
    modal starts from. *)
Definition openEditModal (idx : nat) (cart : list SaleItem.t)
    : option nat * SaleItem.t :=
  (Some idx, default noItem (cart !! idx)).

(** ** Backend service: writing orders ([createSale], [updateSale]) *)

(** [Partial<Sale>]: the fields a caller may or may not supply.  Only
    the fields of the modelled [Sale] record appear. *)
Module SaleData.
Record t := mk {
  sellerId : option string;
  sellerName : option string;
  items : option (list SaleItem.t);
  totalValue : option Q;
  status : option SaleStatus;
  discount : option Q;
  freight : option Q;
  otherCosts : option Q;
  payments : option PaymentDetails.t
}.
End SaleData.

(** The store refused a single-row request: no row has the identifier. *)
Inductive StoreFailure := NoSuchRow.

(** [createSale].  [newId] is the identifier the database gives the new
    row.  A field that was not supplied is stored empty and read back by
    [mapSale] as the empty string, [0], no lines or no payments. *)
Definition createSale (st : Store) (newId : string) (saleData : SaleData.t)
    : Store * Sale.t :=
  let row :=
    Sale.mk newId
      (default "" (SaleData.sellerId saleData))
      (default "" (SaleData.sellerName saleData))
      None None
      (default [] (SaleData.items saleData))
      (default 0 (SaleData.totalValue saleData))
      (default PENDING (SaleData.status saleData))
      None
      (default 0 (SaleData.discount saleData))
      (default 0 (SaleData.freight saleData))
      (default 0 (SaleData.otherCosts saleData))
      (default PaymentDetails.empty (SaleData.payments saleData)) in
  (mkStore (products st) (<[newId := row]> (sales st)), row).

(** [updateSale]: only the supplied fields reach the update, and the
    seller fields never do.  An update in which no field is supplied is
    modelled as writing the row back as it is. *)
Definition updateSale (st : Store) (id : string) (saleData : SaleData.t)
    : Store * (StoreFailure + Sale.t) :=
  match sales st !! id with
  | None => (st, inl NoSuchRow)
  | Some sale =>
    let row :=
      Sale.mk (Sale.id sale) (Sale.sellerId sale) (Sale.sellerName sale)
        (Sale.cashierId sale) (Sale.cashierName sale)
        (default (Sale.items sale) (SaleData.items saleData))
        (default (Sale.totalValue sale) (SaleData.totalValue saleData))
        (default (Sale.status sale) (SaleData.status saleData))
        (Sale.finishedAt sale)
        (default (Sale.discount sale) (SaleData.discount saleData))
        (default (Sale.freight sale) (SaleData.freight saleData))
        (default (Sale.otherCosts sale) (SaleData.otherCosts saleData))
        (default (Sale.payments sale) (SaleData.payments saleData)) in
    (mkStore (products st) (<[id := row]> (sales st)), inr row)
  end.

(** ** Saving and reopening an order ([handleSubmitSale], [handleEditSale]) *)

(** [salePayload] with the seller, as [handleSubmitSale] builds it. *)
Definition salePayload_data (sellerId sellerName : string)
    (p : SalePayload) : SaleData.t :=
  SaleData.mk (Some sellerId) (Some sellerName) (Some (pl_items p))
    (Some (pl_totalValue p)) (Some (pl_status p)) (Some (pl_discount p))
    (Some (pl_freight p)) (Some (pl_otherCosts p)) (Some (pl_payments p)).

(** What became of a submission: refused by validation, refused by the
    store, or saved. *)
Inductive SubmitResult :=
| SubmitRefused (msg : Message)
| SubmitStoreError
| SubmitSaved (sale : Sale.t).

(** [handleSubmitSale] to its end: validation, then [updateSale] on the
    order being edited or [createSale] of a new one. *)
Definition submitSale (st : Store) (editingSaleId : option string)
    (newId userId userName : string) (cart : list SaleItem.t)
    (posDiscount posFreight posOther : Q) (payments : PaymentDetails.t)
    (asBudget : bool) : Store * SubmitResult :=
  match handleSubmitSale cart posDiscount posFreight posOther payments asBudget with
  | inl msg => (st, SubmitRefused msg)
  | inr salePayload =>
    let saleData := salePayload_data userId userName salePayload in
    match editingSaleId with
    | Some id =>
      match updateSale st id saleData with
      | (st', inl _) => (st', SubmitStoreError)
      | (st', inr sale) => (st', SubmitSaved sale)
      end
    | None =>
      let '(st', sale) := createSale st newId saleData in
      (st', SubmitSaved sale)
    end
  end.

(** The cells of the point of sale that an order is loaded into. *)
Record LoadedSale := mkLoadedSale {
  ld_editingSaleId : option string;
  ld_cart : list SaleItem.t;
  ld_posDiscount : Q;
  ld_posFreight : Q;
  ld_posOther : Q;
  ld_payments : PaymentDetails.t
}.

(** [products.find(p => p.id === id)?.code], a missing code being the
    empty string. *)
Definition find_code (catalog : list Product.t) (pid : string) : string :=
  match List.find (fun p => bool_decide (Product.id p = pid)) catalog with
  | Some p => Product.code p
  | None => ""
  end.

(** [handleEditSale]. *)
Definition handleEditSale (catalog : list Product.t) (sale : Sale.t)
    : LoadedSale :=
  let hydratedItems :=
    map (fun item =>
           SaleItem.mk (SaleItem.productId item)
             (if decide (SaleItem.productCode item = "")
              then find_code catalog (SaleItem.productId item)
              else SaleItem.productCode item)
             (SaleItem.productName item) (SaleItem.quantity item)
             (SaleItem.unitPrice item) (SaleItem.originalPrice item)
             (SaleItem.total item) (SaleItem.unit item)
             (SaleItem.observation item))
        (Sale.items sale) in
  mkLoadedSale (Some (Sale.id sale)) hydratedItems
    (js_or (Sale.discount sale) 0) (js_or (Sale.freight sale) 0)
    (js_or (Sale.otherCosts sale) 0) (Sale.payments sale).

(** ** Cashier confirmation ([handleCashierFinalize]) *)

(** The update of [handleCashierFinalize]: the payments as the cashier
    left them. *)
Definition payments_only (payments : PaymentDetails.t) : SaleData.t :=
  SaleData.mk None None None None None None None None (Some payments).

(** ** Backend service: the catalogue ([toggleProductActive], [deleteProduct]) *)

Definition with_active (a : bool) (p : Product.t) : Product.t :=
  Product.mk (Product.id p) (Product.code p) (Product.name p)
    (Product.price p) (Product.stock p) (Product.unit p) a.

Definition toggleProductActive (st : Store) (id : string)
    : Store * (StoreFailure + Product.t) :=
  match products st !! id with
  | None => (st, inl NoSuchRow)
  | Some current =>
    let row := with_active (negb (Product.active current)) current in
    (mkStore (<[id := row]> (products st)) (sales st), inr row)
  end.

Definition deleteProduct (st : Store) (id : string) : Store :=
  mkStore (delete id (products st)) (sales st).

(** ** Units of measure ([getUnits], [toggleUnitActive]) *)

Record UnitConfig := mkUnitConfig {
  uc_code : string;
  uc_name : string;
  uc_active : bool
}.

Definition DEFAULT_UNITS : list UnitConfig :=
  [mkUnitConfig "UNID" "Unidade" true; mkUnitConfig "KG" "Quilograma" true;
   mkUnitConfig "LT" "Litro" true; mkUnitConfig "MT" "Metro" true;
   mkUnitConfig "CX" "Caixa" true; mkUnitConfig "PAR" "Par" true;
   mkUnitConfig "PC" "Peça" true; mkUnitConfig "DZ" "Dúzia" false;
   mkUnitConfig "ML" "Mililitro" false; mkUnitConfig "G" "Grama" false].

(** [stored] is the list kept under the configuration key of the local
    storage, if one was saved. *)
Definition getUnits (stored : option (list UnitConfig)) : list UnitConfig :=
  match stored with
  | Some units => units
  | None => DEFAULT_UNITS
  end.

(** [toggleUnitActive]: the storage cell afterwards and the list
    returned. *)
Definition toggleUnitActive (code : string) (stored : option (list UnitConfig))
    : option (list UnitConfig) * list UnitConfig :=
  let units := getUnits stored in
  let newUnits :=
    map (fun u => if decide (uc_code u = code)
                  then mkUnitConfig (uc_code u) (uc_name u) (negb (uc_active u))
                  else u)
        units in
  (Some newUnits, newUnits).

(** ** Vocabulary of the further properties *)

(** [after] has exactly the rows of [before], each with every field
    but the stock as it was. *)
Definition rows_kept (before after : gmap string Product.t) : Prop :=
  forall pid,
    match before !! pid, after !! pid with
    | Some p, Some p' => Product.with_stock 0 p' = Product.with_stock 0 p
    | None, None => True
    | _, _ => False
    end.

(** The operations of the core that concern the stock, run one after
    the other on the cart and the store: adding an item, submitting the
    cart (which empties it when the order is saved), completing and
    cancelling an order. *)
Inductive Operation :=
| AddItem (isCashierConfirming : bool) (selectedProduct : option Product.t)
    (itemQty itemPrice : Q)
| SubmitSale (editingSaleId : option string) (newId userId userName : string)
    (posDiscount posFreight posOther : Q) (payments : PaymentDetails.t)
    (asBudget : bool)
| CompleteSale (saleId cashierId cashierName now : string)
| CancelSale (saleId : string).

Record System := mkSystem {
  sys_cart : list SaleItem.t;
  sys_store : Store
}.

Definition step (op : Operation) (s : System) : System :=
  match op with
  | AddItem c sel qty price =>
    mkSystem (fst (handleAddItem c sel qty price (sys_cart s))) (sys_store s)
  | SubmitSale editingSaleId newId userId userName d f o payments asBudget =>
    let r := submitSale (sys_store s) editingSaleId newId userId userName
               (sys_cart s) d f o payments asBudget in
    mkSystem (match snd r with
              | SubmitSaved _ => []
              | _ => sys_cart s
              end)
             (fst r)
  | CompleteSale saleId cashierId cashierName now =>
    mkSystem (sys_cart s)
      (fst (completeSale (sys_store s) saleId cashierId cashierName now))
  | CancelSale saleId =>
    mkSystem (sys_cart s) (fst (cancelSale (sys_store s) saleId))
  end.

(** The data model's lines have a quantity that is not negative. *)
Definition quantities_nonneg (st : Store) : Prop :=
  forall id sale, sales st !! id = Some sale ->
    Forall (fun i => 0 <= SaleItem.quantity i) (Sale.items sale).

(** An operation that enters no negative quantity. *)
Definition enters_no_negative (op : Operation) : Prop :=
  match op with
  | AddItem _ _ itemQty _ => 0 <= itemQty
  | _ => True
  end.



Definition run (ops : list Operation) (s : System) : System :=
  fold_left (fun s op => step op s) ops s.

(** ** The amounts as doubles

    Where a property depends on how the amounts are rounded, the code
    is read once more with the numbers it computes with, binary64
    floating-point numbers.  The definitions of this module follow the
    same source lines as their namesakes above. *)

Module Double.

Local Open Scope float_scope.

(** Truthiness of a number: everything but zero, minus zero and NaN. *)
Definition truthy (x : float) : bool := negb ((x =? 0) || is_nan x).

(** [a || b] on numbers. *)
Definition js_or (a b : float) : float := if truthy a then a else b.

(** The amount of [cents] hundredths, as [parseMoney] and the catalogue
    yield it: the double nearest to the decimal number. *)
Definition amount (cents : Z) : float := of_uint63 (Uint63.of_Z cents) / 100.

Module SaleItem.
Record t := mk {
  productId : string;
  quantity : float;
  unitPrice : float;
  originalPrice : float;
  total : float
}.
End SaleItem.

(** [arr.reduce((acc, x) => acc + f(x), 0)]. *)
Definition reduce_sum {A : Type} (f : A -> float) (l : list A) : float :=
  fold_left (fun acc x => acc + f x) l 0.

Definition subTotal (cart : list SaleItem.t) : float :=
  reduce_sum SaleItem.total cart.

Definition totalOriginalValue (cart : list SaleItem.t) : float :=
  reduce_sum
    (fun item => SaleItem.quantity item *
                 js_or (SaleItem.originalPrice item) (SaleItem.unitPrice item))
    cart.

(** The line that [handleAddItem] builds. *)
Definition newItem (productId : string) (itemQty itemPrice price : float)
    : SaleItem.t :=
  SaleItem.mk productId itemQty itemPrice price (itemPrice * itemQty).

(** The combined percentage, as [confirmDiscount] and the handlers of
    the modal compute it. *)
Definition effectivePercent (cart : list SaleItem.t) (val : float) : float :=
  let totalOriginalValue := totalOriginalValue cart in
  let currentSubTotal := subTotal cart in
  let discountFromItems := totalOriginalValue - currentSubTotal in
  let totalDiscount := discountFromItems + val in
  if 0 <? totalOriginalValue
  then (totalDiscount / totalOriginalValue) * 100
  else 0.

Record DiscountModal := mkDiscountModal {
  discountModalOpen : bool;
  tempDiscountValue : float;
  tempDiscountPercent : float;
  discountToken : list N
}.

(** The error of the gate, with the percentage it names. *)
Inductive Message :=
| MsgDiscountNeedsToken (finalPercent : float).

(** [confirmDiscount]. *)
Definition confirmDiscount (cart : list SaleItem.t) (posDiscount : float)
    (m : DiscountModal) : float * DiscountModal * option Message :=
  let finalPercent := effectivePercent cart (tempDiscountValue m) in
  if (6 <? finalPercent) && bool_decide (length (discountToken m) < 3)%nat
  then (posDiscount, m, Some (MsgDiscountNeedsToken finalPercent))
  else (tempDiscountValue m,
        mkDiscountModal false (tempDiscountValue m) (tempDiscountPercent m)
          (discountToken m),
        None).

(** The discount distribution of [completeSale], on the lines and the
    discount of the stored order. *)
Definition distribute (factor : float) (item : SaleItem.t) : SaleItem.t :=
  let netUnitPrice := SaleItem.unitPrice item * factor in
  SaleItem.mk (SaleItem.productId item) (SaleItem.quantity item)
    netUnitPrice (SaleItem.originalPrice item)
    (netUnitPrice * SaleItem.quantity item).

Definition finalItems (items : list SaleItem.t) (discount : float)
    : list SaleItem.t :=
  if truthy discount && (0 <? discount) then
    let subTotal := reduce_sum SaleItem.total items in
    if 0 <? subTotal then
      let factor := (subTotal - discount) / subTotal in
      map (distribute factor) items
    else items
  else items.

Definition finalDiscount (items : list SaleItem.t) (discount : float) : float :=
  if truthy discount && (0 <? discount) then
    let subTotal := reduce_sum SaleItem.total items in
    if 0 <? subTotal then 0 else discount
  else discount.

End Double.



Definition line_616_double : Double.SaleItem.t :=
  Double.newItem "p1" 5 (Double.amount 616) (Double.amount 616).

(** * Properties *)

(** ** Numbers *)

Lemma Qltb_true a b : Qltb a b = true <-> a < b.
Proof.
  unfold Qltb. rewrite negb_true_iff.
  destruct (Qle_bool b a) eqn:E.
  - apply Qle_bool_iff in E. split; [discriminate | intros H; lra].
  - split; [intros _ | reflexivity].
    apply Qnot_le_lt. intros H. apply Qle_bool_iff in H. congruence.
Qed.

Lemma Qltb_false a b : Qltb a b = false <-> b <= a.
Proof.
  unfold Qltb. rewrite negb_false_iff. apply Qle_bool_iff.
Qed.

Lemma truthy_true x : truthy x = true <-> ~ x == 0.
Proof.
  unfold truthy. rewrite negb_true_iff.
  destruct (Qeq_bool x 0) eqn:E.
  - apply Qeq_bool_iff in E. split; [discriminate | tauto].
  - split; [intros _ H | reflexivity].
    apply Qeq_bool_iff in H. congruence.
Qed.

Lemma truthy_false x : truthy x = false <-> x == 0.
Proof.
  unfold truthy. rewrite negb_false_iff. apply Qeq_bool_iff.
Qed.

(** ** Sums *)

Lemma fold_sum_acc {A : Type} (f : A -> Q) (l : list A) (a : Q) :
  fold_left (fun acc x => acc + f x) l a == a + sigma f l.
Proof.
  revert a. induction l as [|x l IH]; intros a; simpl.
  - lra.
  - rewrite IH. lra.
Qed.

Lemma reduce_sum_sigma {A : Type} (f : A -> Q) (l : list A) :
  reduce_sum f l == sigma f l.
Proof. unfold reduce_sum. rewrite fold_sum_acc. lra. Qed.

Lemma sigma_map {A B : Type} (g : A -> B) (f : B -> Q) (l : list A) :
  sigma f (map g l) = sigma (fun x => f (g x)) l.
Proof. induction l as [|x l IH]; simpl; [reflexivity | now rewrite IH]. Qed.

(** C1. For every cart, order discount, freight and other costs, the
    order total is [max(0, Σ line.total − discount + freight + other)]. *)
Theorem totalGeneral_formula (cart : list SaleItem.t) (d f o : Q) :
  totalGeneral cart d f o == Qmax 0 (sigma SaleItem.total cart - d + f + o).
Proof.
  unfold totalGeneral, subTotal.
  rewrite (reduce_sum_sigma SaleItem.total cart). reflexivity.
Qed.

(** ** Discount gate *)





(** With a token of three characters or more the same discount goes
    through. *)
Example confirmDiscount_with_token :
  confirmDiscount cart_10pct 0 (mkDiscountModal true 3 10 token_mgr1)
  = (3, mkDiscountModal false 3 10 token_mgr1, None).
Proof. reflexivity. Qed.

(** ** Payment validation *)

Lemma length_zero_nil {A : Type} (l : list A) : length l = 0%nat <-> l = [].
Proof. destruct l; simpl; split; congruence. Qed.

(** An empty cart is refused before any payment is looked at, and a
    submission without any payment is refused as such, not as a
    mismatch. *)
Lemma handleSubmitSale_other_errors :
  (0 < totalGeneral [] 0 10 0 /\ totalPaid PaymentDetails.empty == 0 /\
   handleSubmitSale [] 0 10 0 PaymentDetails.empty false = inl MsgEmptyCart) /\
  (0 < totalGeneral cart_10pct 0 0 0 /\
   0.05 < Qabs (totalPaid PaymentDetails.empty - totalGeneral cart_10pct 0 0 0) /\
   handleSubmitSale cart_10pct 0 0 0 PaymentDetails.empty false
   = inl MsgNoPaymentMethod).
Proof. repeat split. Qed.

(** C5 (amended). For a cart that is not empty: a non-budget submission
    with a positive total and nothing paid fails with the
    no-payment-method error; one with a positive total, something paid
    and a paid amount more than 0.05 away from the total fails with the
    mismatch error, which reports the shortfall [total − paid] or the
    overage [|total − paid|]; with a zero total it passes whatever the
    payments are; and a budget submission always passes. *)
Theorem handleSubmitSale_payment_validation (cart : list SaleItem.t)
    (d f o : Q) (payments : PaymentDetails.t) (asBudget : bool) :
  cart <> [] ->
  let total := totalGeneral cart d f o in
  let paid := totalPaid payments in
  let result := handleSubmitSale cart d f o payments asBudget in
  (asBudget = false -> 0 < total -> paid == 0 ->
   result = inl MsgNoPaymentMethod) /\
  (asBudget = false -> 0 < total -> ~ paid == 0 ->
   0.05 < Qabs (paid - total) ->
   (paid < total -> result = inl (MsgPaymentShort (total - paid))) /\
   (total < paid -> result = inl (MsgPaymentOver (Qabs (total - paid)))) /\
   (paid < total \/ total < paid)) /\
  (asBudget = false -> total == 0 ->
   result = inr (mkSalePayload cart d f o payments total PENDING)) /\
  (asBudget = true ->
   result = inr (mkSalePayload cart d f o payments total BUDGET)).
Proof.
  intros Hne total paid result.
  assert (Hlen : length cart <> 0%nat) by (rewrite length_zero_nil; exact Hne).
  subst result. unfold handleSubmitSale. fold total. fold paid.
  destruct (decide (length cart = 0%nat)) as [E|_]; [contradiction|].
  split; [|split; [|split]].
  - intros -> Hpos Hpaid. cbn [negb].
    apply Qltb_true in Hpos. rewrite Hpos.
    apply Qeq_bool_iff in Hpaid. rewrite Hpaid. reflexivity.
  - intros -> Hpos Hpaid Htol. cbn [negb].
    apply Qltb_true in Hpos. rewrite Hpos.
    destruct (Qeq_bool paid 0) eqn:E; [apply Qeq_bool_iff in E; contradiction|].
    pose proof Htol as Htol'. apply Qltb_true in Htol'. rewrite Htol'.
    split; [|split].
    + intros Hlt.
      assert (Hd : Qltb 0 (total - paid) = true) by (apply Qltb_true; lra).
      rewrite Hd. reflexivity.
    + intros Hgt.
      assert (Hd : Qltb 0 (total - paid) = false) by (apply Qltb_false; lra).
      rewrite Hd. reflexivity.
    + revert Htol. apply Qabs_case; intros; lra.
  - intros -> Hz. cbn [negb].
    assert (Hd : Qltb 0 total = false) by (apply Qltb_false; lra).
    rewrite Hd. reflexivity.
  - intros ->. reflexivity.
Qed.

Lemma handleSubmitSale_payment_validation_witness :
  handleSubmitSale cart_10pct 0 0 0 (PaymentDetails.mk 25 0 0 0 0 0 0 0 0) false
  = inl (MsgPaymentShort (totalGeneral cart_10pct 0 0 0
                          - totalPaid (PaymentDetails.mk 25 0 0 0 0 0 0 0 0))).
Proof.
  apply (proj1 (proj1 (proj2 (handleSubmitSale_payment_validation cart_10pct
           0 0 0 (PaymentDetails.mk 25 0 0 0 0 0 0 0 0) false
           ltac:(discriminate)))
         eq_refl ltac:(reflexivity) ltac:(vm_compute; discriminate)
         ltac:(reflexivity))).
  reflexivity.
Defined.

(** The scenario of the specification: one line of 3 at 10.00, paid
    30.00 in cash. *)
Example submit_scenario :
  subTotal cart_10pct == 30 /\ totalGeneral cart_10pct 0 0 0 == 30 /\
  remaining cart_10pct 0 0 0 (PaymentDetails.mk 30 0 0 0 0 0 0 0 0) == 0 /\
  handleSubmitSale cart_10pct 0 0 0 (PaymentDetails.mk 30 0 0 0 0 0 0 0 0) false
  = inr (mkSalePayload cart_10pct 0 0 0 (PaymentDetails.mk 30 0 0 0 0 0 0 0 0)
           (totalGeneral cart_10pct 0 0 0) PENDING).
Proof. repeat split. Qed.

(** ** Line edits *)

Lemma handleAddItem_line_consistent (c : bool) (sel : option Product.t)
    (qty price : Q) (cart : list SaleItem.t) :
  Forall line_consistent cart ->
  Forall line_consistent (fst (handleAddItem c sel qty price cart)).
Proof.
  intros H. unfold handleAddItem.
  destruct c; [exact H|]. destruct sel as [p|]; [|exact H].
  destruct (Qltb _ _); [exact H|]. simpl.
  apply Forall_app; split; [exact H|].
  constructor; [|constructor]. unfold line_consistent. simpl. reflexivity.
Qed.

Lemma js_or_zero (x : Q) : js_or x 0 == x.
Proof.
  unfold js_or. destruct (truthy x) eqn:E; [reflexivity|].
  apply truthy_false in E. rewrite E. reflexivity.
Qed.

Lemma saveEditItem_line_consistent (cart cart' : list SaleItem.t)
    (editItemIndex : option nat) (editItemData : SaleItem.t)
    (notices : list Message) :
  Forall line_consistent cart ->
  saveEditItem cart editItemIndex editItemData = EditSaved cart' notices ->
  Forall line_consistent cart'.
Proof.
  intros Hcart Hsave. unfold saveEditItem in Hsave.
  destruct editItemIndex as [idx|]; [|discriminate].
  destruct (truthy (SaleItem.quantity editItemData)) eqn:Hq; [|discriminate].
  match type of Hsave with
  | context [<[idx := ?item]> cart] =>
    assert (Hnew : line_consistent item)
  end.
  { unfold line_consistent. cbn [SaleItem.total SaleItem.unitPrice SaleItem.quantity].
    rewrite !js_or_zero. ring. }
  destruct (decide (idx < length cart)%nat).
  - injection Hsave as <- _. apply Forall_insert; assumption.
  - destruct (decide (idx = length cart)); [|discriminate].
    injection Hsave as <- _. apply Forall_app. split; [assumption|].
    constructor; [exact Hnew | constructor].
Qed.

(** C6. A line edit with a positive quantity (prices being amounts, that
    is, not negative) stores a line whose unit price is the original
    price if the entered price was empty or zero, and the entered price
    raised to the floor [originalPrice × 0.94] otherwise; in both cases
    the unit price is at least [0.94 × originalPrice] and the total is
    the unit price times the quantity. *)
Theorem saveEditItem_price_floor (cart : list SaleItem.t) (idx : nat)
    (editItemData : SaleItem.t) :
  (idx < length cart)%nat ->
  0 < SaleItem.quantity editItemData ->
  0 <= SaleItem.originalPrice editItemData ->
  0 <= SaleItem.unitPrice editItemData ->
  exists newItem notices,
    saveEditItem cart (Some idx) editItemData
    = EditSaved (<[idx := newItem]> cart) notices /\
    SaleItem.quantity newItem = SaleItem.quantity editItemData /\
    SaleItem.originalPrice newItem = SaleItem.originalPrice editItemData /\
    (SaleItem.unitPrice editItemData == 0 ->
     SaleItem.unitPrice newItem == SaleItem.originalPrice newItem) /\
    (~ SaleItem.unitPrice editItemData == 0 ->
     SaleItem.unitPrice newItem
     == Qmax (SaleItem.unitPrice editItemData)
             (SaleItem.originalPrice newItem * 0.94)) /\
    0.94 * SaleItem.originalPrice newItem <= SaleItem.unitPrice newItem /\
    SaleItem.total newItem
    == SaleItem.unitPrice newItem * SaleItem.quantity newItem.
Proof.
  intros Hidx Hq Ho Hu.
  unfold saveEditItem.
  assert (Hqt : truthy (SaleItem.quantity editItemData) = true)
    by (apply truthy_true; lra).
  rewrite Hqt.
  destruct (decide (idx < length cart)%nat) as [_|]; [|contradiction].
  eexists _, _. split; [reflexivity|].
  cbn [SaleItem.quantity SaleItem.originalPrice SaleItem.unitPrice SaleItem.total].
  set (q := SaleItem.quantity editItemData) in *.
  set (u := SaleItem.unitPrice editItemData) in *.
  set (o := SaleItem.originalPrice editItemData) in *.
  assert (Hjq : js_or q 0 = q) by (unfold js_or; now rewrite Hqt).
  rewrite Hjq.
  assert (Hrev : (negb (truthy u) || Qeq_bool u 0) = negb (truthy u)).
  { unfold truthy. destruct (Qeq_bool u 0); reflexivity. }
  rewrite Hrev.
  assert (Hjs : forall x, js_or x 0 == x).
  { intros x. unfold js_or. destruct (truthy x) eqn:E; [reflexivity|].
    apply truthy_false in E. rewrite E. reflexivity. }
  split; [reflexivity|]. split; [reflexivity|].
  destruct (truthy u) eqn:Eu; cbn [negb].
  - (* a price was entered *)
    destruct (truthy o) eqn:Eo.
    + assert (Horig : js_or (js_or o u) 0 = o) by (unfold js_or; now rewrite !Eo).
      rewrite !Horig. apply truthy_true in Eu.
      destruct (Qltb u (o * 0.94)) eqn:Ec.
      * apply Qltb_true in Ec.
        split; [intros; contradiction|]. split.
        { intros _. rewrite Q.max_r by lra. reflexivity. }
        split; [lra|]. rewrite Hjs. lra.
      * apply Qltb_false in Ec.
        split; [intros; contradiction|]. split.
        { intros _. rewrite Q.max_l by lra. reflexivity. }
        split; [lra|]. rewrite Hjs. lra.
    + assert (Horig : js_or (js_or o u) 0 = u)
        by (unfold js_or; now rewrite Eo, Eu).
      rewrite !Horig. apply truthy_true in Eu. apply truthy_false in Eo.
      assert (Ec : Qltb u (u * 0.94) = false) by (apply Qltb_false; lra).
      rewrite Ec.
      split; [intros; contradiction|]. split.
      { intros _. rewrite Q.max_l by lra. reflexivity. }
      split; [lra|]. rewrite Hjs. lra.
  - (* empty or zero: back to the original price *)
    assert (Horig : js_or (js_or o u) 0 == o).
    { unfold js_or. destruct (truthy o) eqn:Eo.
      - rewrite Eo. reflexivity.
      - rewrite Eu. apply truthy_false in Eo. lra. }
    apply truthy_false in Eu.
    set (orig := js_or (js_or o u) 0) in *.
    assert (Ec : Qltb orig (orig * 0.94) = false) by (apply Qltb_false; lra).
    rewrite Ec.
    split; [intros _; exact Horig|]. split; [intros; contradiction|].
    split; [lra|]. rewrite Hjs. lra.
Qed.

Lemma saveEditItem_price_floor_witness :
  exists newItem notices,
    saveEditItem [line_100] (Some 0%nat) (line_100_at 90)
    = EditSaved (<[0%nat := newItem]> [line_100]) notices /\
    0.94 * SaleItem.originalPrice newItem <= SaleItem.unitPrice newItem.
Proof.
  destruct (saveEditItem_price_floor [line_100] 0 (line_100_at 90))
    as (newItem & notices & Hsave & _ & _ & _ & _ & Hfloor & _).
  - simpl. lia.
  - reflexivity.
  - vm_compute. discriminate.
  - vm_compute. discriminate.
  - exists newItem, notices. split; [exact Hsave | exact Hfloor].
Defined.

Example saveEditItem_clamps :
  saveEditItem [line_100] (Some 0%nat) (line_100_at 90)
  = EditSaved [SaleItem.mk "p2" "002" "Gadget" 2 (100 * 0.94) 100
                 (2 * (100 * 0.94)) "UNID" ""]
      [MsgAdjustedToLimit].
Proof. reflexivity. Qed.

Example saveEditItem_reverts :
  saveEditItem [line_100] (Some 0%nat) (line_100_at 0)
  = EditSaved [SaleItem.mk "p2" "002" "Gadget" 2 100 100 (2 * 100) "UNID" ""]
      [MsgRevertedToOriginal].
Proof. reflexivity. Qed.

Example saveEditItem_no_quantity :
  saveEditItem [line_100] (Some 0%nat)
    (SaleItem.mk "p2" "002" "Gadget" 0 90 100 100 "UNID" "") = EditIgnored.
Proof. reflexivity. Qed.

(** ** The three views of the discount modal *)

Lemma effectivePercent_pos (cart : list SaleItem.t) (val : Q) :
  0 < totalOriginalValue cart ->
  effectivePercent cart val
  == (totalOriginalValue cart - subTotal cart + val) / totalOriginalValue cart * 100.
Proof.
  intros HT. unfold effectivePercent.
  apply Qltb_true in HT. rewrite HT. reflexivity.
Qed.

Lemma effectivePercent_back (cart : list SaleItem.t) (val : Q) :
  0 < totalOriginalValue cart ->
  totalOriginalValue cart * effectivePercent cart val / 100
  - (totalOriginalValue cart - subTotal cart) == val.
Proof.
  intros HT. rewrite effectivePercent_pos by exact HT.
  field. lra.
Qed.

Lemma effectivePercent_compat (cart : list SaleItem.t) (v1 v2 : Q) :
  v1 == v2 -> effectivePercent cart v1 == effectivePercent cart v2.
Proof.
  intros H. unfold effectivePercent.
  destruct (Qltb 0 (totalOriginalValue cart)); [|reflexivity].
  rewrite H. reflexivity.
Qed.

Lemma percent_floor (T S pct : Q) :
  0 < T -> (T - S + 0) / T * 100 <= pct -> T - S <= T * pct / 100.
Proof.
  intros HT H.
  assert (E : (T - S + 0) / T * 100 * T == (T - S) * 100) by (field; lra).
  assert (Hm : (T - S + 0) / T * 100 * T <= pct * T).
  { apply Qmult_le_compat_r; lra. }
  rewrite E in Hm. clear H E.
  unfold Qdiv. change (/ 100) with (1 # 100). lra.
Qed.

(** A state whose percentage was derived from a non-negative amount is
    stable. *)
Lemma derived_percent_stable (cart : list SaleItem.t) (m : DiscountModal) :
  0 < totalOriginalValue cart ->
  0 <= tempDiscountValue m ->
  tempDiscountPercent m == effectivePercent cart (tempDiscountValue m) ->
  views_stable cart m.
Proof.
  intros HT Hv Hp.
  unfold views_stable, same_views, totalComDescontoView; simpl.
  assert (Hback : Qmax 0 (totalOriginalValue cart * tempDiscountPercent m / 100
                          - (totalOriginalValue cart - subTotal cart))
                  == tempDiscountValue m).
  { rewrite Hp, effectivePercent_back by exact HT. apply Q.max_r. exact Hv. }
  assert (Htot : Qmax 0 (subTotal cart - (subTotal cart - tempDiscountValue m))
                 == tempDiscountValue m).
  { rewrite Q.max_r; lra. }
  repeat split; try reflexivity.
  - symmetry. exact Hp.
  - exact Hback.
  - rewrite Hback. reflexivity.
  - exact Htot.
  - rewrite Hp. apply effectivePercent_compat. exact Htot.
  - rewrite Htot. reflexivity.
Qed.

(** Entering a percentage below the one the lines already carry leaves
    the amount at 0 and the entered percentage on display; feeding that
    amount back shows another percentage. *)
Lemma discount_views_not_stable :
  let m0 := openDiscountModal false cart_line_discount 0
              (mkDiscountModal false 0 0 []) in
  let m1 := handleDiscountPercentChange cart_line_discount 2 m0 in
  let m2 := handleDiscountValueChange cart_line_discount (tempDiscountValue m1) m1 in
  tempDiscountValue m1 == 0 /\ tempDiscountPercent m1 == 2 /\
  tempDiscountPercent m2 == 5 /\
  ~ same_views cart_line_discount m2 m1 /\
  ~ views_stable cart_line_discount m1.
Proof.
  cbv zeta.
  assert (Hne : ~ same_views cart_line_discount
                  (handleDiscountValueChange cart_line_discount
                     (tempDiscountValue
                        (handleDiscountPercentChange cart_line_discount 2
                           (openDiscountModal false cart_line_discount 0
                              (mkDiscountModal false 0 0 []))))
                     (handleDiscountPercentChange cart_line_discount 2
                        (openDiscountModal false cart_line_discount 0
                           (mkDiscountModal false 0 0 []))))
                  (handleDiscountPercentChange cart_line_discount 2
                     (openDiscountModal false cart_line_discount 0
                        (mkDiscountModal false 0 0 [])))).
  { intros (_ & Hp & _). vm_compute in Hp. discriminate Hp. }
  repeat split; try reflexivity; try exact Hne.
  intros (H & _). exact (Hne H).
Qed.

(** C7 (amended). On a cart whose original value is positive, the
    triple shown after editing the amount (to a non-negative value) or
    the target total is reproduced by each of the three handlers when
    fed its own displayed value; after editing the percentage this holds
    when the entered percentage is not below the percentage that the
    line-level discounts alone amount to. *)
Theorem discount_views_round_trip (cart : list SaleItem.t) (m : DiscountModal) :
  0 < totalOriginalValue cart ->
  (forall val, 0 <= val ->
     views_stable cart (handleDiscountValueChange cart val m)) /\
  (forall totalComDesconto,
     views_stable cart (handleDiscountTotalChange cart totalComDesconto m)) /\
  (forall pct, effectivePercent cart 0 <= pct ->
     views_stable cart (handleDiscountPercentChange cart pct m)).
Proof.
  intros HT. split; [|split].
  - intros val Hval. apply derived_percent_stable; simpl; auto. reflexivity.
  - intros t. apply derived_percent_stable; simpl; auto.
    + apply Q.le_max_l.
    + reflexivity.
  - intros pct H. apply derived_percent_stable; simpl; auto.
    + apply Q.le_max_l.
    + rewrite effectivePercent_pos in H by exact HT.
      pose proof (percent_floor _ _ _ HT H) as Hge.
      rewrite effectivePercent_pos by exact HT.
      rewrite Q.max_r by (revert Hge; generalize (totalOriginalValue cart * pct / 100); intros; lra).
      field. lra.
Qed.

Lemma discount_views_round_trip_witness :
  views_stable cart_10pct
    (handleDiscountTotalChange cart_10pct 27 (mkDiscountModal true 0 0 [])).
Proof.
  apply (proj1 (proj2 (discount_views_round_trip cart_10pct
                         (mkDiscountModal true 0 0 []) ltac:(reflexivity)))).
Defined.

(** The scenario of the specification: a target total of 27.00 on a
    subtotal of 30.00 gives a discount of 3.00, that is 10%. *)
Example discount_target_total_scenario :
  let m := handleDiscountTotalChange cart_10pct 27 (mkDiscountModal true 0 0 []) in
  tempDiscountValue m == 3 /\ tempDiscountPercent m == 10 /\
  totalComDescontoView cart_10pct m == 27.
Proof. repeat split. Qed.

(** ** Stock ledger *)

Lemma lineQuantity_cons_eq (item : SaleItem.t) (rest : list SaleItem.t) :
  lineQuantity (SaleItem.productId item) (item :: rest)
  == SaleItem.quantity item + lineQuantity (SaleItem.productId item) rest.
Proof.
  unfold lineQuantity. rewrite filter_cons_True by reflexivity. reflexivity.
Qed.

Lemma lineQuantity_cons_ne (pid : string) (item : SaleItem.t)
    (rest : list SaleItem.t) :
  SaleItem.productId item <> pid ->
  lineQuantity pid (item :: rest) = lineQuantity pid rest.
Proof.
  intros H. unfold lineQuantity. rewrite filter_cons_False by exact H. reflexivity.
Qed.

Lemma stock_shifted_refl (prods : gmap string Product.t) (delta : string -> Q) :
  (forall pid, delta pid == 0) -> stock_shifted delta prods prods.
Proof.
  intros H pid. destruct (prods !! pid); [|exact I].
  split; [rewrite H; lra | reflexivity].
Qed.

Lemma stock_shifted_ext (d1 d2 : string -> Q) (before after : gmap string Product.t) :
  (forall pid, d1 pid == d2 pid) ->
  stock_shifted d1 before after -> stock_shifted d2 before after.
Proof.
  intros Hd H pid. specialize (H pid).
  destruct (before !! pid), (after !! pid); try exact H.
  destruct H as [H1 H2]. split; [rewrite <- Hd; exact H1 | exact H2].
Qed.

(** One write of the ledger followed by a shift of the rest. *)
Lemma stock_shifted_step (prods after : gmap string Product.t)
    (item : SaleItem.t) (rest : list SaleItem.t) (prod : Product.t)
    (sign : Q) (s : Q) :
  prods !! SaleItem.productId item = Some prod ->
  s == Product.stock prod + sign * SaleItem.quantity item ->
  stock_shifted (fun pid => sign * lineQuantity pid rest)
    (<[SaleItem.productId item := Product.with_stock s prod]> prods) after ->
  stock_shifted (fun pid => sign * lineQuantity pid (item :: rest)) prods after.
Proof.
  intros Hprod Hs Hshift pid. specialize (Hshift pid).
  destruct (decide (SaleItem.productId item = pid)) as [<-|Hne].
  - rewrite lookup_insert_eq in Hshift. rewrite Hprod.
    destruct (after !! SaleItem.productId item) as [p'|]; [|exact Hshift].
    destruct Hshift as [Hst Hrest]. simpl in Hst. split.
    + rewrite Hst, Hs, lineQuantity_cons_eq. lra.
    + rewrite Hrest. reflexivity.
  - rewrite lookup_insert_ne in Hshift by exact Hne.
    rewrite lineQuantity_cons_ne by exact Hne. exact Hshift.
Qed.

Lemma stock_shifted_skip (prods after : gmap string Product.t)
    (item : SaleItem.t) (rest : list SaleItem.t) (sign : Q) :
  prods !! SaleItem.productId item = None ->
  stock_shifted (fun pid => sign * lineQuantity pid rest) prods after ->
  stock_shifted (fun pid => sign * lineQuantity pid (item :: rest)) prods after.
Proof.
  intros Hnone Hshift pid. specialize (Hshift pid).
  destruct (decide (SaleItem.productId item = pid)) as [<-|Hne].
  - rewrite Hnone in *. exact Hshift.
  - rewrite lineQuantity_cons_ne by exact Hne. exact Hshift.
Qed.

(** [restoreStock] adds to every product the quantity the lines hold of it. *)
Lemma restoreStock_shift (items : list SaleItem.t) (prods : gmap string Product.t) :
  stock_shifted (fun pid => 1 * lineQuantity pid items) prods
    (restoreStock prods items).
Proof.
  revert prods. induction items as [|item rest IH]; intros prods.
  - apply stock_shifted_refl. intros pid. unfold lineQuantity. simpl. lra.
  - simpl. destruct (prods !! SaleItem.productId item) as [prod|] eqn:E.
    + eapply stock_shifted_step; [exact E | | apply IH]. lra.
    + apply stock_shifted_skip; [exact E | apply IH].
Qed.

(** The ledger reads only the product and the quantity of a line. *)
Lemma decrementStock_distribute (factor : Q) (items : list SaleItem.t)
    (prods : gmap string Product.t) :
  decrementStock prods (map (distribute factor) items)
  = decrementStock prods items.
Proof.
  revert prods. induction items as [|item rest IH]; intros prods; simpl.
  - reflexivity.
  - destruct (prods !! SaleItem.productId item) as [prod|].
    + destruct (Qltb _ _); [reflexivity | apply IH].
    + apply IH.
Qed.

Lemma decrementStock_finalItems (sale : Sale.t) (prods : gmap string Product.t) :
  decrementStock prods (finalItems sale) = decrementStock prods (Sale.items sale).
Proof.
  unfold finalItems.
  destruct (_ && _); [|reflexivity].
  destruct (Qltb _ _); [|reflexivity].
  apply decrementStock_distribute.
Qed.

(** *** Cancellation *)

(** C8. Cancelling an order that is Completed adds to every product's
    stock the quantities of the lines that refer to it, changes no other
    field and no other row, and writes the Cancelled status; cancelling
    an order in any other status writes the Cancelled status and leaves
    the product table as it was. *)
Theorem cancelSale_restores_stock (st : Store) (saleId : string) (sale : Sale.t) :
  sales st !! saleId = Some sale ->
  exists st' sale',
    cancelSale st saleId = (st', inr sale') /\
    Sale.status sale' = CANCELLED /\
    Sale.items sale' = Sale.items sale /\
    sales st' !! saleId = Some sale' /\
    (Sale.status sale = COMPLETED ->
     stock_shifted (fun pid => lineQuantity pid (Sale.items sale))
       (products st) (products st')) /\
    (Sale.status sale <> COMPLETED -> products st' = products st).
Proof.
  intros Hsale. unfold cancelSale. rewrite Hsale.
  eexists _, _. split; [reflexivity|]. simpl.
  split; [reflexivity|]. split; [reflexivity|].
  split; [apply lookup_insert_eq|].
  destruct (decide (Sale.status sale = COMPLETED)) as [E|E]; split.
  - intros _. eapply stock_shifted_ext; [|apply restoreStock_shift].
    intros pid. simpl. lra.
  - intros H. contradiction.
  - intros H. contradiction.
  - intros _. reflexivity.
Qed.

Lemma cancelSale_restores_stock_witness :
  exists st' sale',
    cancelSale store0 "s2" = (st', inr sale') /\
    Sale.status sale' = CANCELLED /\
    stock_shifted (fun pid => lineQuantity pid cart_10pct)
      (products store0) (products st').
Proof.
  destruct (cancelSale_restores_stock store0 "s2" (order_in COMPLETED "s2" 0))
    as (st' & sale' & Hrun & Hst & _ & _ & Hshift & _).
  - reflexivity.
  - exists st', sale'. split; [exact Hrun|]. split; [exact Hst|].
    apply Hshift. reflexivity.
Defined.

Example cancelSale_completed_stock :
  Product.stock <$> (products (fst (cancelSale store0 "s2")) !! "p1") = Some (5 + 3).
Proof. reflexivity. Qed.

Example cancelSale_pending_stock :
  products (fst (cancelSale store0 "s1")) = products store0.
Proof. reflexivity. Qed.

(** *** Stock never goes below zero *)

Lemma stock_nonneg_insert (prods : gmap string Product.t) (pid : string)
    (prod : Product.t) (s : Q) :
  stock_nonneg prods -> 0 <= s ->
  stock_nonneg (<[pid := Product.with_stock s prod]> prods).
Proof.
  intros Hinv Hs k p. destruct (decide (pid = k)) as [<-|Hne].
  - rewrite lookup_insert_eq. intros [= <-]. exact Hs.
  - rewrite lookup_insert_ne by exact Hne. apply Hinv.
Qed.

(** Also when the loop stops at a line that fails the check. *)
Lemma decrementStock_nonneg (items : list SaleItem.t) (prods : gmap string Product.t) :
  stock_nonneg prods -> stock_nonneg (fst (decrementStock prods items)).
Proof.
  revert prods. induction items as [|item rest IH]; intros prods Hinv; simpl.
  - exact Hinv.
  - destruct (prods !! SaleItem.productId item) as [prod|] eqn:E.
    + destruct (Qltb _ _) eqn:Hlt; [exact Hinv|].
      apply IH. apply stock_nonneg_insert; [exact Hinv|].
      apply Qltb_false in Hlt. lra.
    + apply IH. exact Hinv.
Qed.

Lemma restoreStock_nonneg (items : list SaleItem.t) (prods : gmap string Product.t) :
  Forall (fun i => 0 <= SaleItem.quantity i) items ->
  stock_nonneg prods -> stock_nonneg (restoreStock prods items).
Proof.
  intros Hq. revert prods.
  induction Hq as [|item rest Hitem _ IH]; intros prods Hinv; simpl.
  - exact Hinv.
  - destruct (prods !! SaleItem.productId item) as [prod|] eqn:E.
    + apply IH. apply stock_nonneg_insert; [exact Hinv|].
      pose proof (Hinv _ _ E). lra.
    + apply IH. exact Hinv.
Qed.

Lemma submitSale_products (st : Store) (editingSaleId : option string)
    (newId userId userName : string) (cart : list SaleItem.t) (d f o : Q)
    (payments : PaymentDetails.t) (asBudget : bool) :
  products (fst (submitSale st editingSaleId newId userId userName cart d f o
                   payments asBudget)) = products st.
Proof.
  unfold submitSale.
  destruct (handleSubmitSale cart d f o payments asBudget); [reflexivity|].
  destruct editingSaleId as [id|]; [|reflexivity].
  unfold updateSale. destruct (sales st !! id); reflexivity.
Qed.

Lemma step_stock_nonneg (op : Operation) (s : System) :
  quantities_nonneg (sys_store s) ->
  stock_nonneg (products (sys_store s)) ->
  stock_nonneg (products (sys_store (step op s))).
Proof.
  intros Hq Hinv.
  destruct op as [c sel qty price | e newId uid un d f o p b
                 | id cid cname now | id]; simpl.
  - exact Hinv.
  - rewrite submitSale_products. exact Hinv.
  - unfold completeSale.
    destruct (sales (sys_store s) !! id) as [sale|]; [|exact Hinv].
    destruct (decide (Sale.status sale = COMPLETED)); [exact Hinv|].
    pose proof (decrementStock_nonneg (finalItems sale) _ Hinv) as H.
    destruct (decrementStock _ _) as [prods [e|]]; exact H.
  - unfold cancelSale.
    destruct (sales (sys_store s) !! id) as [sale|] eqn:E; [|exact Hinv]. simpl.
    destruct (decide (Sale.status sale = COMPLETED)); [|exact Hinv].
    apply restoreStock_nonneg; [|exact Hinv]. exact (Hq _ _ E).
Qed.




(** The operations keep the stored quantities non-negative as long as
    no negative quantity is entered, so the stock then stays
    non-negative along every run. *)
Lemma distribute_quantities (factor : Q) (items : list SaleItem.t) :
  Forall (fun i => 0 <= SaleItem.quantity i) items ->
  Forall (fun i => 0 <= SaleItem.quantity i) (map (distribute factor) items).
Proof. induction 1; simpl; constructor; assumption. Qed.

Lemma finalItems_quantities (sale : Sale.t) :
  Forall (fun i => 0 <= SaleItem.quantity i) (Sale.items sale) ->
  Forall (fun i => 0 <= SaleItem.quantity i) (finalItems sale).
Proof.
  intros H. unfold finalItems.
  destruct (_ && _); [|exact H]. destruct (Qltb _ _); [|exact H].
  now apply distribute_quantities.
Qed.

Lemma handleAddItem_quantities (c : bool) (sel : option Product.t)
    (qty price : Q) (cart : list SaleItem.t) :
  0 <= qty ->
  Forall (fun i => 0 <= SaleItem.quantity i) cart ->
  Forall (fun i => 0 <= SaleItem.quantity i)
    (fst (handleAddItem c sel qty price cart)).
Proof.
  intros Hq H. unfold handleAddItem.
  destruct c; [exact H|]. destruct sel as [p|]; [|exact H].
  destruct (Qltb _ _); [exact H|]. simpl.
  apply Forall_app. split; [exact H|]. constructor; [exact Hq | constructor].
Qed.

Lemma insert_quantities (sls : gmap string Sale.t) (id : string) (row : Sale.t) :
  (forall k sale, sls !! k = Some sale ->
     Forall (fun i => 0 <= SaleItem.quantity i) (Sale.items sale)) ->
  Forall (fun i => 0 <= SaleItem.quantity i) (Sale.items row) ->
  forall k sale, <[id := row]> sls !! k = Some sale ->
    Forall (fun i => 0 <= SaleItem.quantity i) (Sale.items sale).
Proof.
  intros Hq Hrow k sale. destruct (decide (id = k)) as [<-|Hne].
  - rewrite lookup_insert_eq. intros [= <-]. exact Hrow.
  - rewrite lookup_insert_ne by exact Hne. apply Hq.
Qed.

Lemma submitSale_quantities (st : Store) (editingSaleId : option string)
    (newId userId userName : string) (cart : list SaleItem.t) (d f o : Q)
    (payments : PaymentDetails.t) (asBudget : bool) :
  Forall (fun i => 0 <= SaleItem.quantity i) cart ->
  quantities_nonneg st ->
  quantities_nonneg (fst (submitSale st editingSaleId newId userId userName
                            cart d f o payments asBudget)).
Proof.
  intros Hc Hq. unfold submitSale.
  destruct (handleSubmitSale cart d f o payments asBudget) as [msg|p] eqn:E;
    [exact Hq|].
  assert (Hp : pl_items p = cart).
  { unfold handleSubmitSale in E.
    destruct (decide (length cart = 0%nat)); [discriminate|].
    destruct (negb asBudget); [|now injection E as <-].
    destruct (Qltb 0 _); [|now injection E as <-].
    destruct (Qeq_bool _ _); [discriminate|].
    destruct (Qltb 0.05 _); [|now injection E as <-].
    destruct (Qltb 0 _); discriminate. }
  destruct editingSaleId as [id|].
  - unfold updateSale. destruct (sales st !! id) as [old|]; [|exact Hq].
    unfold quantities_nonneg. cbn. intros k row.
    apply insert_quantities; [exact Hq|]. cbn. now rewrite Hp.
  - unfold quantities_nonneg. cbn. intros k row.
    apply insert_quantities; [exact Hq|]. cbn. now rewrite Hp.
Qed.

Lemma quantities_nonneg_preserved (op : Operation) (s : System) :
  enters_no_negative op ->
  Forall (fun i => 0 <= SaleItem.quantity i) (sys_cart s) ->
  quantities_nonneg (sys_store s) ->
  Forall (fun i => 0 <= SaleItem.quantity i) (sys_cart (step op s)) /\
  quantities_nonneg (sys_store (step op s)).
Proof.
  intros Hop Hc Hq.
  destruct op as [c sel qty price | e newId uid un d f o p b
                 | id cid cname now | id]; simpl.
  - split; [apply handleAddItem_quantities; assumption | exact Hq].
  - split; [|apply submitSale_quantities; assumption].
    destruct (snd _); [exact Hc | exact Hc | constructor].
  - split; [exact Hc|]. unfold completeSale.
    destruct (sales (sys_store s) !! id) as [sale|] eqn:E; [|exact Hq].
    destruct (decide (Sale.status sale = COMPLETED)); [exact Hq|].
    destruct (decrementStock _ _) as [prods [e|]]; [exact Hq|].
    unfold quantities_nonneg. cbn. intros k row.
    apply insert_quantities; [exact Hq|]. cbn.
    apply finalItems_quantities. exact (Hq _ _ E).
  - split; [exact Hc|]. unfold cancelSale.
    destruct (sales (sys_store s) !! id) as [sale|] eqn:E; [|exact Hq].
    unfold quantities_nonneg. cbn. intros k row.
    apply insert_quantities; [exact Hq|]. cbn. exact (Hq _ _ E).
Qed.

Lemma stock_nonneg_run (ops : list Operation) (s : System) :
  Forall enters_no_negative ops ->
  Forall (fun i => 0 <= SaleItem.quantity i) (sys_cart s) ->
  quantities_nonneg (sys_store s) ->
  stock_nonneg (products (sys_store s)) ->
  stock_nonneg (products (sys_store (run ops s))).
Proof.
  intros Hops. revert s. unfold run.
  induction Hops as [|op ops Hop _ IH]; intros s Hc Hq Hinv; simpl.
  - exact Hinv.
  - destruct (quantities_nonneg_preserved op s Hop Hc Hq) as [Hc' Hq'].
    apply IH; [exact Hc' | exact Hq' |].
    now apply step_stock_nonneg.
Qed.

(** *** Lines whose product is not in the catalogue *)

Lemma decrementStock_keeps_missing (items : list SaleItem.t)
    (prods : gmap string Product.t) (pid : string) :
  prods !! pid = None -> fst (decrementStock prods items) !! pid = None.
Proof.
  revert prods. induction items as [|item rest IH]; intros prods H; simpl.
  - exact H.
  - destruct (prods !! SaleItem.productId item) as [prod|] eqn:E.
    + destruct (Qltb _ _); [exact H|].
      apply IH. rewrite lookup_insert_ne; [exact H | congruence].
    + apply IH. exact H.
Qed.

Lemma decrementStock_skip (before rest : list SaleItem.t) (item : SaleItem.t)
    (prods : gmap string Product.t) :
  prods !! SaleItem.productId item = None ->
  decrementStock prods (before ++ item :: rest)
  = decrementStock prods (before ++ rest).
Proof.
  revert prods. induction before as [|b before IH]; intros prods H; simpl.
  - rewrite H. reflexivity.
  - destruct (prods !! SaleItem.productId b) as [prod|] eqn:E.
    + destruct (Qltb _ _); [reflexivity|].
      apply IH. rewrite lookup_insert_ne; [exact H | congruence].
    + apply IH. exact H.
Qed.

Lemma restoreStock_skip (before rest : list SaleItem.t) (item : SaleItem.t)
    (prods : gmap string Product.t) :
  prods !! SaleItem.productId item = None ->
  restoreStock prods (before ++ item :: rest)
  = restoreStock prods (before ++ rest).
Proof.
  revert prods. induction before as [|b before IH]; intros prods H; simpl.
  - rewrite H. reflexivity.
  - destruct (prods !! SaleItem.productId b) as [prod|] eqn:E.
    + apply IH. rewrite lookup_insert_ne; [exact H | congruence].
    + apply IH. exact H.
Qed.

Lemma finalItems_length (sale : Sale.t) :
  length (finalItems sale) = length (Sale.items sale).
Proof.
  unfold finalItems. destruct (_ && _); [|reflexivity].
  destruct (Qltb _ _); [|reflexivity]. apply length_map.
Qed.

(** C10. A line whose product is not in the product table is skipped by
    the ledger.  Completing an order that has such a line checks and
    writes the stock exactly as for the order without the line: the
    product table afterwards is the same, the completion fails in the
    same cases, and when it succeeds the line is still part of the
    completed order.  Cancelling a Completed order with such a line
    restores the stock exactly as for the order without it. *)
Theorem missing_product_line_skipped (st : Store)
    (saleId cashierId cashierName now : string) (sale : Sale.t)
    (before rest : list SaleItem.t) (item : SaleItem.t) :
  sales st !! saleId = Some sale ->
  Sale.items sale = before ++ item :: rest ->
  products st !! SaleItem.productId item = None ->
  let completed := completeSale st saleId cashierId cashierName now in
  let ledger := decrementStock (products st) (before ++ rest) in
  (Sale.status sale <> COMPLETED ->
   products (fst completed) = fst ledger /\
   (forall e, snd ledger = Some e -> snd completed = inl e) /\
   (snd ledger = None ->
    exists sale', snd completed = inr sale' /\
                  Sale.status sale' = COMPLETED /\
                  length (Sale.items sale') = length (Sale.items sale))) /\
  (Sale.status sale = COMPLETED ->
   products (fst (cancelSale st saleId))
   = restoreStock (products st) (before ++ rest)).
Proof.
  intros Hsale Hitems Hmissing completed ledger. split.
  - intros Hst. subst completed ledger. unfold completeSale. rewrite Hsale.
    destruct (decide (Sale.status sale = COMPLETED)); [contradiction|].
    rewrite decrementStock_finalItems.
    replace (decrementStock (products st) (Sale.items sale))
      with (decrementStock (products st) (before ++ rest))
      by (rewrite Hitems; symmetry; apply decrementStock_skip; exact Hmissing).
    destruct (decrementStock (products st) (before ++ rest)) as [prods [e|]];
      simpl.
    + split; [reflexivity|]. split; [intros e' [= <-]; reflexivity | discriminate].
    + split; [reflexivity|]. split; [discriminate|]. intros _.
      eexists. split; [reflexivity|]. simpl. split; [reflexivity|].
      apply finalItems_length.
  - intros Hst. unfold cancelSale. rewrite Hsale. simpl.
    destruct (decide (Sale.status sale = COMPLETED)); [|contradiction].
    rewrite Hitems. apply restoreStock_skip. exact Hmissing.
Qed.

Lemma missing_product_line_skipped_witness :
  products (fst (completeSale store_ghost "g1" "c1" "Cashier" "t"))
  = fst (decrementStock (products store_ghost) cart_10pct).
Proof.
  apply (missing_product_line_skipped store_ghost "g1" "c1" "Cashier" "t"
           (Sale.mk "g1" "u1" "Seller" None None (ghost_line :: cart_10pct)
              44 PENDING None 0 0 0 PaymentDetails.empty)
           [] cart_10pct ghost_line).
  - reflexivity.
  - reflexivity.
  - reflexivity.
  - discriminate.
Defined.

Example complete_ghost_order :
  let r := completeSale store_ghost "g1" "c1" "Cashier" "t" in
  (Sale.status <$> (sales (fst r) !! "g1")) = Some COMPLETED /\
  (Product.stock <$> (products (fst r) !! "p1")) = Some (5 - 3) /\
  products (fst r) !! "gone" = None.
Proof. repeat split. Qed.

Example cancel_ghost_order :
  products (fst (cancelSale store_ghost "g2")) = products store_ghost.
Proof. reflexivity. Qed.

(** *** Completion: the status guard *)

(** [completeSale] moves a Budget order and a Cancelled order to
    Completed, taking their quantities from the stock. *)
Lemma completeSale_from_budget_and_cancelled :
  let r3 := completeSale store0 "s3" "c1" "Cashier" "t" in
  let r4 := completeSale store0 "s4" "c1" "Cashier" "t" in
  (Sale.status <$> (sales store0 !! "s3")) = Some BUDGET /\
  (Sale.status <$> returned (snd r3)) = Some COMPLETED /\
  (Sale.status <$> (sales (fst r3) !! "s3")) = Some COMPLETED /\
  (Product.stock <$> (products (fst r3) !! "p1")) = Some (5 - 3) /\
  (Sale.status <$> (sales store0 !! "s4")) = Some CANCELLED /\
  (Sale.status <$> returned (snd r4)) = Some COMPLETED /\
  (Sale.status <$> (sales (fst r4) !! "s4")) = Some COMPLETED.
Proof. repeat split. Qed.

(** C3 (amended). [completeSale] on an order that is already Completed
    fails with the already-completed error and leaves the store as it
    was.  That is its only check of the status: on an order that is
    Pending, Budget or Cancelled it fails only for insufficient stock,
    and when the stock check of every line passes it writes the order
    as Completed. *)
Theorem completeSale_status_guard (st : Store)
    (saleId cashierId cashierName now : string) (sale : Sale.t) :
  sales st !! saleId = Some sale ->
  let r := completeSale st saleId cashierId cashierName now in
  (Sale.status sale = COMPLETED -> r = (st, inl SaleAlreadyCompleted)) /\
  (Sale.status sale <> COMPLETED ->
   (forall e, snd r = inl e -> e = InsufficientStock) /\
   (snd (decrementStock (products st) (Sale.items sale)) = None ->
    exists sale', snd r = inr sale' /\
                  Sale.status sale' = COMPLETED /\
                  sales (fst r) !! saleId = Some sale')) /\
  (forall all s, s ∈ cashierQueue all -> Sale.status s = PENDING).
Proof.
  intros Hsale r. subst r. unfold completeSale. rewrite Hsale.
  split; [|split].
  - intros E. destruct (decide (Sale.status sale = COMPLETED)); [reflexivity|contradiction].
  - intros E. destruct (decide (Sale.status sale = COMPLETED)); [contradiction|].
    rewrite decrementStock_finalItems.
    destruct (decrementStock (products st) (Sale.items sale)) as [prods [e|]] eqn:Hdec;
      simpl.
    + split; [|discriminate]. intros e' [= <-].
      clear -Hdec. revert Hdec. generalize (products st).
      induction (Sale.items sale) as [|item rest IH]; intros ps; simpl.
      * discriminate.
      * destruct (ps !! SaleItem.productId item) as [prod|]; [|apply IH].
        destruct (Qltb _ _); [intros [= _ <-]; reflexivity | apply IH].
    + split; [discriminate|]. intros _.
      eexists. split; [reflexivity|]. split; [reflexivity|].
      apply lookup_insert_eq.
  - intros all s Hs. unfold cashierQueue in Hs.
    apply list_elem_of_filter in Hs. tauto.
Qed.

Lemma completeSale_status_guard_witness :
  completeSale store0 "s2" "c1" "Cashier" "t" = (store0, inl SaleAlreadyCompleted).
Proof.
  apply (proj1 (completeSale_status_guard store0 "s2" "c1" "Cashier" "t"
                  (order_in COMPLETED "s2" 0) eq_refl)).
  reflexivity.
Defined.

(** *** Completion: distributing the order discount over the lines *)

Lemma finalItems_positive (sale : Sale.t) :
  0 < Sale.discount sale ->
  0 < subTotal (Sale.items sale) ->
  finalItems sale
  = map (distribute ((subTotal (Sale.items sale) - Sale.discount sale)
                     / subTotal (Sale.items sale)))
        (Sale.items sale) /\
  finalDiscount sale = 0.
Proof.
  intros Hd Hs. unfold finalItems, finalDiscount.
  assert (Ht : truthy (Sale.discount sale) = true) by (apply truthy_true; lra).
  apply Qltb_true in Hd. rewrite Ht, Hd. simpl.
  apply Qltb_true in Hs. unfold subTotal in *. rewrite Hs. split; reflexivity.
Qed.

Lemma distribute_lines (factor : Q) (items : list SaleItem.t) :
  Forall2 (fun item item' =>
             SaleItem.unitPrice item' = SaleItem.unitPrice item * factor /\
             SaleItem.total item'
             = SaleItem.unitPrice item' * SaleItem.quantity item' /\
             SaleItem.quantity item' = SaleItem.quantity item /\
             SaleItem.productId item' = SaleItem.productId item /\
             SaleItem.originalPrice item' = SaleItem.originalPrice item)
          items (map (distribute factor) items).
Proof.
  induction items as [|item rest IH]; simpl; constructor.
  - simpl. repeat split.
  - exact IH.
Qed.

(** An order of 5 at 6.16 with a discount of 0.66: the line is written
    with the total 30.139999999999997, the subtotal less the discount
    is 30.14. *)
Lemma distributed_totals_not_exact :
  let items := [line_616_double] in
  let d := Double.amount 66 in
  let S := Double.subTotal items in
  Double.truthy d = true /\
  PrimFloat.ltb 0 S = true /\
  Double.SaleItem.total line_616_double
  = PrimFloat.mul (Double.SaleItem.unitPrice line_616_double)
                  (Double.SaleItem.quantity line_616_double) /\
  Double.finalDiscount items d = 0%float /\
  PrimFloat.eqb (Double.subTotal (Double.finalItems items d))
                (PrimFloat.sub S d) = false /\
  PrimFloat.ltb (Double.subTotal (Double.finalItems items d))
                (PrimFloat.sub S d) = true.
Proof. vm_compute. repeat split. Qed.

(** C2 (amended). When an order with a discount [d] that is not zero
    (a discount is never negative: the handlers that set it yield a
    parsed amount or [max(0, ...)]) and a positive subtotal is
    completed, the order is written with every line's unit price
    multiplied by [factor = (subtotal - d) / subtotal] (the unit price
    as it stands, line-level discount included), every line's total set
    to the new unit price times the quantity, and the discount set to
    zero.  The new totals, computed in doubles, need not sum exactly to
    [subtotal - d]. *)
Theorem completeSale_distributes_discount (st st' : Store)
    (saleId cashierId cashierName now : string) (sale sale' : Sale.t) :
  sales st !! saleId = Some sale ->
  0 <= Sale.discount sale ->
  ~ Sale.discount sale == 0 ->
  0 < subTotal (Sale.items sale) ->
  completeSale st saleId cashierId cashierName now = (st', inr sale') ->
  let subtotal := subTotal (Sale.items sale) in
  let factor := (subtotal - Sale.discount sale) / subtotal in
  sales st' !! saleId = Some sale' /\
  Sale.discount sale' = 0 /\
  Forall2 (fun item item' =>
             SaleItem.unitPrice item' = SaleItem.unitPrice item * factor /\
             SaleItem.total item'
             = SaleItem.unitPrice item' * SaleItem.quantity item' /\
             SaleItem.quantity item' = SaleItem.quantity item /\
             SaleItem.productId item' = SaleItem.productId item /\
             SaleItem.originalPrice item' = SaleItem.originalPrice item)
          (Sale.items sale) (Sale.items sale').
Proof.
  intros Hsale Hd0 Hdne Hs Hc subtotal factor.
  assert (Hd : 0 < Sale.discount sale).
  { destruct (Qle_lt_or_eq _ _ Hd0) as [Hd|E]; [exact Hd|].
    symmetry in E. contradiction. }
  destruct (finalItems_positive sale Hd Hs) as [Hitems Hdisc].
  fold subtotal in Hitems. fold factor in Hitems.
  unfold completeSale in Hc. rewrite Hsale in Hc.
  destruct (decide (Sale.status sale = COMPLETED)); [discriminate|].
  destruct (decrementStock _ _) as [prods [e|]]; [discriminate|].
  injection Hc as <- <-. simpl.
  split; [apply lookup_insert_eq|]. split; [exact Hdisc|].
  rewrite Hitems. apply distribute_lines.
Qed.

Lemma completeSale_distributes_discount_witness :
  let r := completeSale store0 "s1" "c1" "Cashier" "t" in
  (Sale.discount <$> (sales (fst r) !! "s1")) = Some 0 /\
  (subTotal <$> (Sale.items <$> (sales (fst r) !! "s1"))) = Some (0 + 10 * ((0 + 30 - 3) / (0 + 30)) * 3).
Proof.
  cbv zeta.
  destruct (completeSale store0 "s1" "c1" "Cashier" "t") as [st' [e|sale']] eqn:Hrun;
    [vm_compute in Hrun; discriminate Hrun|].
  destruct (completeSale_distributes_discount store0 st' "s1" "c1" "Cashier" "t"
              (order_in PENDING "s1" 3) sale' eq_refl
              ltac:(vm_compute; discriminate) ltac:(vm_compute; discriminate)
              ltac:(reflexivity) Hrun) as (Hst & Hdisc & _).
  simpl. rewrite Hst. simpl. rewrite Hdisc.
  split; [reflexivity|].
  vm_compute in Hrun. injection Hrun as _ <-. reflexivity.
Defined.

(** The scenario of the specification: subtotal 30.00, discount 3.00;
    the line's unit price becomes 9, the discount 0 and the stock is
    reduced by the quantity. *)
Example completeSale_scenario :
  let r := completeSale store0 "s1" "c1" "Cashier" "t" in
  match snd r with
  | inr sale' =>
    Sale.status sale' = COMPLETED /\ Sale.discount sale' = 0 /\
    Forall (fun i => SaleItem.unitPrice i == 9 /\ SaleItem.total i == 27)
      (Sale.items sale')
  | inl _ => False
  end /\
  (Product.stock <$> (products (fst r) !! "p1")) = Some (5 - 3).
Proof. vm_compute. repeat (split || constructor). Qed.

(** * Further properties of the code *)

(** ** Money input *)



Lemma digits_of_app (s1 s2 : string) :
  digits_of (s1 +:+ s2) = digits_of s1 +:+ digits_of s2.
Proof.
  induction s1 as [|c s1 IH]; simpl; [reflexivity|].
  destruct (is_digit c); simpl; now rewrite IH.
Qed.

Lemma parseInt_from_app (s1 s2 : string) (acc : Z) :
  parseInt_from acc (s1 +:+ s2) = parseInt_from (parseInt_from acc s1) s2.
Proof.
  revert acc. induction s1 as [|c s1 IH]; intros acc; simpl; [reflexivity|].
  apply IH.
Qed.

(** The integer that [parseMoney] divides by 100. *)
Lemma parseMoney_cents (value : string) :
  parseMoney value = inject_Z (parseInt (digits_of value)) / 100.
Proof.
  unfold parseMoney. destruct (decide (digits_of value = "")) as [E|_];
    [rewrite E|]; reflexivity.
Qed.


(** X2. Characters that are not decimal digits (currency sign, dots,
    commas, a minus sign, spaces) have no effect on the amount read. *)
Theorem parseMoney_ignores_non_digits (s1 s2 : string) (c : Ascii.ascii) :
  is_digit c = false ->
  parseMoney (s1 +:+ String c s2) = parseMoney (s1 +:+ s2).
Proof.
  intros H. rewrite !parseMoney_cents, !digits_of_app. simpl.
  rewrite H. reflexivity.
Qed.

Lemma parseMoney_ignores_non_digits_witness :
  parseMoney ("R$ 1" +:+ String (Ascii.ascii_of_nat 46) "234,50") = parseMoney "R$ 1234,50".
Proof.
  apply (parseMoney_ignores_non_digits "R$ 1" "234,50" (Ascii.ascii_of_nat 46)).
  reflexivity.
Defined.

(** X3. A digit typed at the end of a money field multiplies the number
    of cents read so far by 10 and adds the digit (the number of cents
    is the integer that [parseMoney] divides by 100; it is read exactly
    as long as it stays below 2^53). *)
Theorem parseMoney_append_digit (s : string) (c : Ascii.ascii) :
  is_digit c = true ->
  (10 * parseInt (digits_of s) + digit_value c < 2 ^ 53)%Z ->
  parseInt (digits_of (s +:+ String c ""))
  = (10 * parseInt (digits_of s) + digit_value c)%Z /\
  parseMoney (s +:+ String c "")
  = inject_Z (10 * parseInt (digits_of s) + digit_value c) / 100.
Proof.
  intros H _.
  assert (E : parseInt (digits_of (s +:+ String c ""))
              = (10 * parseInt (digits_of s) + digit_value c)%Z).
  { rewrite digits_of_app. simpl. rewrite H.
    unfold parseInt. rewrite parseInt_from_app. reflexivity. }
  split; [exact E|]. rewrite parseMoney_cents, E. reflexivity.
Qed.

Lemma parseMoney_append_digit_witness :
  parseInt (digits_of ("12,3" +:+ String (Ascii.ascii_of_nat 52) ""))
  = (10 * parseInt (digits_of "12,3") + digit_value (Ascii.ascii_of_nat 52))%Z.
Proof.
  refine (proj1 (parseMoney_append_digit "12,3" (Ascii.ascii_of_nat 52) _ _)).
  - reflexivity.
  - reflexivity.
Defined.

Example parseMoney_examples :
  parseMoney "" == 0 /\ parseMoney "abc" == 0 /\
  parseMoney "1.234,56" == 1234.56 /\ parseMoney "-5,00" == 5.
Proof. repeat split. Qed.

(** ** Payment buckets *)







(** ** Acceptance of a submission *)

Lemma Qeq_bool_false (x y : Q) : Qeq_bool x y = false <-> ~ x == y.
Proof.
  destruct (Qeq_bool x y) eqn:E.
  - apply Qeq_bool_iff in E. split; [discriminate | tauto].
  - split; [intros _ H | reflexivity].
    apply Qeq_bool_iff in H. congruence.
Qed.



(** ** Cart handlers *)

Lemma subTotal_app (c1 c2 : list SaleItem.t) :
  subTotal (c1 ++ c2) == subTotal c1 + subTotal c2.
Proof.
  unfold subTotal. rewrite !reduce_sum_sigma.
  induction c1 as [|x c1 IH]; simpl; [lra | rewrite IH; lra].
Qed.

Lemma currentInCart_app (c1 c2 : list SaleItem.t) (pid : string) :
  currentInCart (c1 ++ c2) pid == currentInCart c1 pid + currentInCart c2 pid.
Proof.
  unfold currentInCart. rewrite filter_app, !reduce_sum_sigma.
  induction (filter _ c1) as [|x l IH]; simpl; [lra | rewrite IH; lra].
Qed.

(** X7. Removing a line keeps the other lines, in their order: the
    lines before it followed by the lines after it, one line fewer; an
    index past the end removes nothing. *)
Theorem handleRemoveItem_lines (idx : nat) (cart : list SaleItem.t) :
  (forall item, cart !! idx = Some item ->
     handleRemoveItem idx cart = take idx cart ++ drop (S idx) cart /\
     S (length (handleRemoveItem idx cart)) = length cart) /\
  (cart !! idx = None -> handleRemoveItem idx cart = cart).
Proof.
  unfold handleRemoveItem. split.
  - revert idx. induction cart as [|x cart IH]; intros idx item H.
    + discriminate.
    + destruct idx as [|idx]; simpl in *.
      * split; reflexivity.
      * destruct (IH idx item H) as [IH1 IH2]. split.
        -- now rewrite IH1.
        -- now rewrite IH2.
  - revert idx. induction cart as [|x cart IH]; intros idx H.
    + reflexivity.
    + destruct idx as [|idx]; simpl in *; [discriminate|].
      now rewrite IH.
Qed.

Lemma handleRemoveItem_lines_witness :
  handleRemoveItem 1 (line_100 :: line_100_at 95 :: cart_10pct)
  = line_100 :: cart_10pct.
Proof.
  apply (proj1 (proj1 (handleRemoveItem_lines 1
                         (line_100 :: line_100_at 95 :: cart_10pct))
                 (line_100_at 95) eq_refl)).
Defined.

(** X8. Outside cashier mode, with a product selected, [handleAddItem]
    refuses the item, leaving the cart as it was, exactly when the stock
    of the product as last read is below what the cart already holds of
    it plus the new quantity.  Otherwise it appends one line, with the
    catalogue price as original price and price times quantity as total;
    the subtotal grows by that total, and the cart then holds no more of
    the product than that stock. *)
Theorem handleAddItem_stock_check (p : Product.t) (itemQty itemPrice : Q)
    (cart : list SaleItem.t) :
  let held := currentInCart cart (Product.id p) in
  (Product.stock p < held + itemQty ->
   handleAddItem false (Some p) itemQty itemPrice cart
   = (cart, Some (MsgInsufficientStock (Product.stock p)))) /\
  (held + itemQty <= Product.stock p ->
   exists line,
     handleAddItem false (Some p) itemQty itemPrice cart
     = (cart ++ [line], None) /\
     SaleItem.productId line = Product.id p /\
     SaleItem.quantity line = itemQty /\
     SaleItem.unitPrice line = itemPrice /\
     SaleItem.originalPrice line = Product.price p /\
     SaleItem.total line = itemPrice * itemQty /\
     subTotal (cart ++ [line]) == subTotal cart + itemPrice * itemQty /\
     currentInCart (cart ++ [line]) (Product.id p) <= Product.stock p).
Proof.
  intros held. unfold handleAddItem. fold held. split.
  - intros H. apply Qltb_true in H. rewrite H. reflexivity.
  - intros H. pose proof H as H'. apply Qltb_false in H'. rewrite H'.
    eexists. split; [reflexivity|]. simpl.
    repeat (split; [reflexivity|]). split.
    + rewrite subTotal_app. unfold subTotal at 2, reduce_sum. simpl. lra.
    + rewrite currentInCart_app. fold held.
      unfold currentInCart at 1. rewrite filter_cons_True by reflexivity.
      rewrite filter_nil. unfold reduce_sum. simpl. lra.
Qed.

Lemma handleAddItem_stock_check_witness :
  handleAddItem false (Some widget) 3 10 cart_10pct
  = (cart_10pct, Some (MsgInsufficientStock (Product.stock widget))).
Proof.
  apply (proj1 (handleAddItem_stock_check widget 3 10 cart_10pct)).
  reflexivity.
Defined.

(** ** The edit modal *)

(** X9. Opening the edit modal on a line and confirming without a
    change stores the line with the fields it had, its total computed
    anew to the same amount, and shows no notice, provided the
    line has a quantity and a price, its price is not below 94% of its
    original price (of its own price, if it has no original price), and
    its total is price times quantity.  Opened on an index past the end
    of the cart, the modal holds no quantity and confirming is ignored. *)
Theorem openEditModal_confirm_unchanged (idx : nat) (cart : list SaleItem.t) :
  let '(editItemIndex, editItemData) := openEditModal idx cart in
  (forall item, cart !! idx = Some item ->
     ~ SaleItem.quantity item == 0 ->
     ~ SaleItem.unitPrice item == 0 ->
     js_or (SaleItem.originalPrice item) (SaleItem.unitPrice item) * 0.94
       <= SaleItem.unitPrice item ->
     exists item',
       saveEditItem cart editItemIndex editItemData
       = EditSaved (<[idx := item']> cart) [] /\
       item' = SaleItem.mk (SaleItem.productId item) (SaleItem.productCode item)
                 (SaleItem.productName item) (SaleItem.quantity item)
                 (SaleItem.unitPrice item) (SaleItem.originalPrice item)
                 (SaleItem.total item') (SaleItem.unit item)
                 (SaleItem.observation item) /\
       (line_consistent item -> SaleItem.total item' == SaleItem.total item)) /\
  (cart !! idx = None ->
   saveEditItem cart editItemIndex editItemData = EditIgnored).
Proof.
  unfold openEditModal. split.
  - intros item Hitem Hq Hu Hfloor. rewrite Hitem. simpl.
    unfold saveEditItem.
    pose proof Hq as Hq'. apply truthy_true in Hq'. rewrite Hq'.
    pose proof Hu as Hu'. apply truthy_true in Hu'.
    assert (Hrev : (negb (truthy (SaleItem.unitPrice item))
                    || Qeq_bool (SaleItem.unitPrice item) 0) = false).
    { rewrite Hu'. simpl. apply Qeq_bool_false. exact Hu. }
    rewrite Hrev.
    assert (Horig : js_or (js_or (SaleItem.originalPrice item)
                                 (SaleItem.unitPrice item)) 0
                    = js_or (SaleItem.originalPrice item) (SaleItem.unitPrice item)).
    { unfold js_or. destruct (truthy (SaleItem.originalPrice item)) eqn:Eo.
      - now rewrite Eo.
      - now rewrite Hu'. }
    rewrite Horig.
    assert (Hclamp : Qltb (SaleItem.unitPrice item)
                       (js_or (SaleItem.originalPrice item)
                              (SaleItem.unitPrice item) * 0.94) = false)
      by (apply Qltb_false; exact Hfloor).
    rewrite Hclamp.
    assert (Hidx : (idx < length cart)%nat)
      by (apply lookup_lt_is_Some; eauto).
    destruct (decide (idx < length cart)%nat); [|contradiction].
    eexists. split; [reflexivity|]. split; [reflexivity|].
    intros Hc. simpl. unfold line_consistent in Hc.
    rewrite !js_or_zero, Hc. ring.
  - intros Hnone. rewrite Hnone. reflexivity.
Qed.

Lemma openEditModal_confirm_unchanged_witness :
  saveEditItem [line_100] (Some 3%nat) noItem = EditIgnored.
Proof.
  apply (proj2 (openEditModal_confirm_unchanged 3 [line_100])).
  reflexivity.
Defined.

(** ** Line discounts and the token gate *)

(** X11. Opening the discount modal and confirming without a change
    never alters the order discount, whether the gate lets the
    confirmation through or refuses it for the missing token (the token
    field is emptied when the modal opens); in cashier mode the modal
    does not open. *)
Theorem openDiscountModal_confirm (cart : list SaleItem.t) (posDiscount : Q)
    (m : DiscountModal) :
  fst (fst (confirmDiscount cart posDiscount
              (openDiscountModal false cart posDiscount m))) = posDiscount /\
  (6 < effectivePercent cart posDiscount ->
   snd (confirmDiscount cart posDiscount
          (openDiscountModal false cart posDiscount m))
   = Some (MsgDiscountNeedsToken (effectivePercent cart posDiscount))) /\
  openDiscountModal true cart posDiscount m = m.
Proof.
  unfold openDiscountModal, confirmDiscount. simpl.
  split; [|split].
  - destruct (Qltb 6 (effectivePercent cart posDiscount)); reflexivity.
  - intros H. apply Qltb_true in H. rewrite H. reflexivity.
  - reflexivity.
Qed.

(** ** Writing orders *)

(** X13. [updateSale] fails without a write when no order has the
    identifier.  Otherwise it rewrites that one order: the product
    table, every other order and the set of order identifiers stay as
    they were, and so do the order's seller, cashier and completion
    time, whatever the caller supplies. *)
Theorem updateSale_scope (st : Store) (id : string) (saleData : SaleData.t) :
  (sales st !! id = None -> updateSale st id saleData = (st, inl NoSuchRow)) /\
  (forall sale, sales st !! id = Some sale ->
     exists row,
       updateSale st id saleData
       = (mkStore (products st) (<[id := row]> (sales st)), inr row) /\
       dom (<[id := row]> (sales st)) = dom (sales st) /\
       (forall other, other <> id ->
          <[id := row]> (sales st) !! other = sales st !! other) /\
       Sale.id row = Sale.id sale /\
       Sale.sellerId row = Sale.sellerId sale /\
       Sale.sellerName row = Sale.sellerName sale /\
       Sale.cashierId row = Sale.cashierId sale /\
       Sale.cashierName row = Sale.cashierName sale /\
       Sale.finishedAt row = Sale.finishedAt sale).
Proof.
  unfold updateSale. split.
  - intros H. rewrite H. reflexivity.
  - intros sale H. rewrite H. eexists. split; [reflexivity|].
    split.
    + apply dom_insert_lookup_L. eauto.
    + split; [intros other Hne; apply lookup_insert_ne; congruence|].
      simpl. repeat split.
Qed.

Lemma updateSale_scope_witness :
  updateSale store0 "nope" (payments_only PaymentDetails.empty)
  = (store0, inl NoSuchRow).
Proof.
  apply (proj1 (updateSale_scope store0 "nope" (payments_only PaymentDetails.empty))).
  reflexivity.
Defined.

Lemma handleSubmitSale_payload (cart : list SaleItem.t) (d f o : Q)
    (payments : PaymentDetails.t) (asBudget : bool) (p : SalePayload) :
  handleSubmitSale cart d f o payments asBudget = inr p ->
  p = mkSalePayload cart d f o payments (totalGeneral cart d f o)
        (if asBudget then BUDGET else PENDING).
Proof.
  unfold handleSubmitSale. intros H.
  destruct (decide (length cart = 0%nat)); [discriminate|].
  destruct asBudget; cbn [negb] in H; [now injection H as <-|].
  destruct (Qltb 0 _); [|now injection H as <-].
  destruct (Qeq_bool _ _); [discriminate|].
  destruct (Qltb 0.05 _); [|now injection H as <-].
  destruct (Qltb 0 _); discriminate.
Qed.



(** X14. A submission that passes validation while an order is being
    edited overwrites that order and creates none: the order keeps its
    identifier and its seller and takes the cart, the amounts, the
    payments, the computed total and the status Budget or Pending, also
    when it was Completed or Cancelled before.  Without an order being
    edited it creates one order under the new identifier, with the user
    as seller, and leaves the others as they were.  A submission that
    fails validation writes nothing. *)
Theorem submitSale_writes (st : Store) (editingSaleId : option string)
    (newId userId userName : string) (cart : list SaleItem.t) (d f o : Q)
    (payments : PaymentDetails.t) (asBudget : bool) :
  let r := submitSale st editingSaleId newId userId userName cart d f o
             payments asBudget in
  let status := if asBudget then BUDGET else PENDING in
  (forall msg, handleSubmitSale cart d f o payments asBudget = inl msg ->
     r = (st, SubmitRefused msg)) /\
  (forall p, handleSubmitSale cart d f o payments asBudget = inr p ->
     match editingSaleId with
     | Some id =>
       match sales st !! id with
       | Some old =>
         exists row,
           r = (mkStore (products st) (<[id := row]> (sales st)), SubmitSaved row) /\
           dom (<[id := row]> (sales st)) = dom (sales st) /\
           Sale.id row = Sale.id old /\
           Sale.sellerId row = Sale.sellerId old /\
           Sale.items row = cart /\ Sale.discount row = d /\
           Sale.freight row = f /\ Sale.otherCosts row = o /\
           Sale.payments row = payments /\
           Sale.totalValue row = totalGeneral cart d f o /\
           Sale.status row = status
       | None => r = (st, SubmitStoreError)
       end
     | None =>
       exists row,
         r = (mkStore (products st) (<[newId := row]> (sales st)), SubmitSaved row) /\
         Sale.id row = newId /\ Sale.sellerId row = userId /\
         Sale.items row = cart /\ Sale.discount row = d /\
         Sale.freight row = f /\ Sale.otherCosts row = o /\
         Sale.payments row = payments /\
         Sale.totalValue row = totalGeneral cart d f o /\
         Sale.status row = status /\
         (sales st !! newId = None ->
          dom (<[newId := row]> (sales st)) = {[newId]} ∪ dom (sales st) /\
          forall other sale, sales st !! other = Some sale ->
            <[newId := row]> (sales st) !! other = Some sale)
     end).
Proof.
  intros r status. subst r. unfold submitSale. split.
  - intros msg H. rewrite H. reflexivity.
  - intros p H. rewrite H. apply handleSubmitSale_payload in H. subst p.
    destruct editingSaleId as [id|].
    + unfold updateSale. destruct (sales st !! id) as [old|] eqn:E;
        [|reflexivity].
      eexists. split; [reflexivity|].
      split; [apply dom_insert_lookup_L; eauto|].
      simpl. repeat split.
    + simpl. eexists. split; [reflexivity|]. simpl.
      repeat (split; [reflexivity|]).
      intros Hfresh. split; [apply dom_insert_L|].
      intros other sale Ho. rewrite lookup_insert_ne; [exact Ho | congruence].
Qed.

Lemma hydrated_subTotal (catalog : list Product.t) (sale : Sale.t) :
  subTotal (ld_cart (handleEditSale catalog sale)) == subTotal (Sale.items sale).
Proof.
  unfold subTotal. rewrite !reduce_sum_sigma. simpl.
  rewrite sigma_map. simpl. reflexivity.
Qed.

Lemma totalGeneral_compat (c1 c2 : list SaleItem.t) (d1 d2 f1 f2 o1 o2 : Q) :
  subTotal c1 == subTotal c2 -> d1 == d2 -> f1 == f2 -> o1 == o2 ->
  totalGeneral c1 d1 f1 o1 == totalGeneral c2 d2 f2 o2.
Proof.
  intros Hc Hd Hf Ho. unfold totalGeneral. rewrite Hc, Hd, Hf, Ho. reflexivity.
Qed.

Lemma hydrated_cart (catalog : list Product.t) (sale : Sale.t) :
  Forall (fun i => SaleItem.productCode i <> "") (Sale.items sale) ->
  ld_cart (handleEditSale catalog sale) = Sale.items sale.
Proof.
  simpl. induction 1 as [|item rest Hc _ IH]; simpl; [reflexivity|].
  rewrite IH. destruct (decide (SaleItem.productCode item = ""));
    [contradiction|]. now destruct item.
Qed.

(** X15. Reopening a stored order for editing shows what was stored:
    the total computed from the loaded cart, discount, freight and
    other costs is the total computed from the stored ones, the
    payments are the stored ones, and the cart is the stored line list
    (a line without a product code receives the code of its product
    from the catalogue, nothing else changes).  For an order written by
    [submitSale] the total on screen is thus the stored total. *)
Theorem handleEditSale_round_trip (catalog : list Product.t) (sale : Sale.t) :
  let ld := handleEditSale catalog sale in
  ld_editingSaleId ld = Some (Sale.id sale) /\
  ld_payments ld = Sale.payments sale /\
  totalGeneral (ld_cart ld) (ld_posDiscount ld) (ld_posFreight ld) (ld_posOther ld)
  == totalGeneral (Sale.items sale) (Sale.discount sale) (Sale.freight sale)
       (Sale.otherCosts sale) /\
  (Forall (fun i => SaleItem.productCode i <> "") (Sale.items sale) ->
   ld_cart ld = Sale.items sale) /\
  (forall st newId userId userName cart d f o payments asBudget st',
     submitSale st None newId userId userName cart d f o payments asBudget
     = (st', SubmitSaved sale) ->
     totalGeneral (ld_cart ld) (ld_posDiscount ld) (ld_posFreight ld)
       (ld_posOther ld) == Sale.totalValue sale).
Proof.
  intros ld.
  assert (Htot : totalGeneral (ld_cart ld) (ld_posDiscount ld)
                   (ld_posFreight ld) (ld_posOther ld)
                 == totalGeneral (Sale.items sale) (Sale.discount sale)
                      (Sale.freight sale) (Sale.otherCosts sale)).
  { apply totalGeneral_compat.
    - apply hydrated_subTotal.
    - apply js_or_zero.
    - apply js_or_zero.
    - apply js_or_zero. }
  split; [reflexivity|]. split; [reflexivity|]. split; [exact Htot|].
  split; [apply hydrated_cart|].
  intros st newId userId userName cart d f o payments asBudget st' H.
  rewrite Htot. unfold submitSale in H.
  destruct (handleSubmitSale cart d f o payments asBudget) as [msg|p] eqn:E;
    [discriminate|].
  apply handleSubmitSale_payload in E. subst p. simpl in H.
  injection H as _ <-. simpl. reflexivity.
Qed.

(** ** Cashier confirmation *)

(** X16. The two writes of the cashier confirmation, [updateSale] with
    the cashier's payments and then [completeSale], on an existing
    order.  The payments are written in every case.  If the order is
    not Completed and the stock check of every line passes, the order
    is completed: it is stored as Completed with those payments, the
    cashier's identity and the completion time.  If the order is already
    Completed, or a line fails the stock check, the completion fails
    with the corresponding error and the payments stay written on the
    order, whose status, lines and discount are as before. *)
Theorem cashier_confirmation_writes (st : Store) (id : string) (sale : Sale.t)
    (payments : PaymentDetails.t) (userId userName now : string) :
  sales st !! id = Some sale ->
  let st1 := fst (updateSale st id (payments_only payments)) in
  let r := completeSale st1 id userId userName now in
  exists row,
    sales (fst r) !! id = Some row /\
    Sale.payments row = payments /\
    Sale.sellerId row = Sale.sellerId sale /\
    (Sale.status sale = COMPLETED ->
     snd r = inl SaleAlreadyCompleted /\
     Sale.status row = Sale.status sale /\
     Sale.items row = Sale.items sale /\
     Sale.discount row = Sale.discount sale /\
     products (fst r) = products st) /\
    (Sale.status sale <> COMPLETED ->
     snd (decrementStock (products st) (Sale.items sale)) = None ->
     snd r = inr row /\
     Sale.status row = COMPLETED /\
     Sale.cashierId row = Some userId /\
     Sale.cashierName row = Some userName /\
     Sale.finishedAt row = Some now) /\
    (Sale.status sale <> COMPLETED ->
     snd (decrementStock (products st) (Sale.items sale)) <> None ->
     snd r = inl InsufficientStock /\
     Sale.status row = Sale.status sale /\
     Sale.items row = Sale.items sale /\
     Sale.discount row = Sale.discount sale).
Proof.
  intros Hsale st1 r. subst st1 r.
  unfold updateSale. rewrite Hsale. simpl.
  unfold completeSale. simpl. rewrite lookup_insert_eq. simpl.
  destruct (decide (Sale.status sale = COMPLETED)) as [E|E].
  - simpl. rewrite lookup_insert_eq. eexists. split; [reflexivity|]. simpl.
    split; [reflexivity|]. split; [reflexivity|].
    split; [intros _; repeat split|].
    split; intros; contradiction.
  - match goal with
    | |- context [decrementStock (products st) (finalItems ?s)] =>
      rewrite (decrementStock_finalItems s); simpl
    end.
    destruct (decrementStock (products st) (Sale.items sale))
      as [prods [e|]] eqn:Hdec; simpl.
    + rewrite lookup_insert_eq. eexists. split; [reflexivity|]. simpl.
      split; [reflexivity|]. split; [reflexivity|].
      split; [intros; contradiction|]. split; [intros _ H; discriminate H|].
      intros _ _. repeat split. f_equal.
      clear -Hdec. revert Hdec. generalize (products st).
      induction (Sale.items sale) as [|item rest IH]; intros ps; simpl.
      * discriminate.
      * destruct (ps !! SaleItem.productId item) as [prod|]; [|apply IH].
        destruct (Qltb _ _); [intros [= _ <-]; reflexivity | apply IH].
    + rewrite lookup_insert_eq. eexists. split; [reflexivity|]. simpl.
      split; [reflexivity|]. split; [reflexivity|].
      split; [intros; contradiction|].
      split; [intros _ _; repeat split | intros _ H; contradiction].
Qed.

Lemma cashier_confirmation_writes_witness :
  exists row,
    snd (completeSale
           (fst (updateSale store0 "s1"
                   (payments_only (PaymentDetails.mk 0 27 0 0 0 0 0 0 0))))
           "s1" "c1" "Cashier" "t") = inr row /\
    Sale.status row = COMPLETED /\
    Sale.payments row = PaymentDetails.mk 0 27 0 0 0 0 0 0 0.
Proof.
  destruct (cashier_confirmation_writes store0 "s1" (order_in PENDING "s1" 3)
              (PaymentDetails.mk 0 27 0 0 0 0 0 0 0) "c1" "Cashier" "t" eq_refl)
    as (row & _ & Hpay & _ & _ & Hok & _).
  destruct Hok as (Hr & Hst & _); [discriminate | reflexivity |].
  exists row. repeat split; assumption.
Defined.

Lemma submitSale_writes_witness :
  exists row,
    submitSale store0 None "s9" "u7" "Ana" cart_10pct 0 0 0
      (PaymentDetails.mk 30 0 0 0 0 0 0 0 0) false
    = (mkStore (products store0) (<["s9" := row]> (sales store0)),
       SubmitSaved row) /\
    Sale.sellerId row = "u7" /\ Sale.status row = PENDING.
Proof.
  destruct (proj2 (submitSale_writes store0 None "s9" "u7" "Ana" cart_10pct
                     0 0 0 (PaymentDetails.mk 30 0 0 0 0 0 0 0 0) false)
              _ eq_refl) as (row & H & _ & Hs & _ & _ & _ & _ & _ & _ & Hst & _).
  exists row. repeat split; assumption.
Defined.

Lemma handleEditSale_round_trip_witness :
  ld_cart (handleEditSale [widget] (order_in PENDING "s1" 3)) = cart_10pct.
Proof.
  refine (proj1 (proj2 (proj2 (proj2
            (handleEditSale_round_trip [widget] (order_in PENDING "s1" 3))))) _).
  repeat constructor; discriminate.
Defined.

(** ** The ledger and the product table *)

Lemma rows_kept_refl (prods : gmap string Product.t) : rows_kept prods prods.
Proof. intros pid. destruct (prods !! pid); [reflexivity | exact I]. Qed.

Lemma rows_kept_write (prods after : gmap string Product.t) (pid : string)
    (prod : Product.t) (s : Q) :
  prods !! pid = Some prod ->
  rows_kept (<[pid := Product.with_stock s prod]> prods) after ->
  rows_kept prods after.
Proof.
  intros Hp H k. specialize (H k).
  destruct (decide (pid = k)) as [<-|Hne].
  - rewrite lookup_insert_eq in H. rewrite Hp.
    destruct (after !! pid); [|exact H]. rewrite H. reflexivity.
  - rewrite lookup_insert_ne in H by exact Hne. exact H.
Qed.

Lemma decrementStock_rows_kept (items : list SaleItem.t)
    (prods : gmap string Product.t) :
  rows_kept prods (fst (decrementStock prods items)).
Proof.
  revert prods. induction items as [|item rest IH]; intros prods; simpl.
  - apply rows_kept_refl.
  - destruct (prods !! SaleItem.productId item) as [prod|] eqn:E; [|apply IH].
    destruct (Qltb _ _); [apply rows_kept_refl|].
    eapply rows_kept_write; [exact E | apply IH].
Qed.

Lemma restoreStock_rows_kept (items : list SaleItem.t)
    (prods : gmap string Product.t) :
  rows_kept prods (restoreStock prods items).
Proof.
  revert prods. induction items as [|item rest IH]; intros prods; simpl.
  - apply rows_kept_refl.
  - destruct (prods !! SaleItem.productId item) as [prod|] eqn:E; [|apply IH].
    eapply rows_kept_write; [exact E | apply IH].
Qed.

(** X17. [completeSale] and [cancelSale] never add a product row, never
    remove one and never change a field other than the stock, also when
    the completion stops at a line without enough stock. *)
Theorem ledger_rows_kept (st : Store) (saleId cashierId cashierName now : string) :
  rows_kept (products st)
    (products (fst (completeSale st saleId cashierId cashierName now))) /\
  rows_kept (products st) (products (fst (cancelSale st saleId))).
Proof.
  split.
  - unfold completeSale. destruct (sales st !! saleId) as [sale|];
      [|apply rows_kept_refl].
    destruct (decide (Sale.status sale = COMPLETED)); [apply rows_kept_refl|].
    pose proof (decrementStock_rows_kept (finalItems sale) (products st)) as H.
    destruct (decrementStock _ _) as [prods [e|]]; exact H.
  - unfold cancelSale. destruct (sales st !! saleId) as [sale|];
      [|apply rows_kept_refl]. simpl.
    destruct (decide (Sale.status sale = COMPLETED)); [|apply rows_kept_refl].
    apply restoreStock_rows_kept.
Qed.

(** X19. An order that was completed cannot be completed again: the
    second call fails with the already-completed error and leaves the
    store, and so the stock, as the first call left it. *)
Theorem completeSale_twice (st st1 : Store) (sale1 : Sale.t)
    (saleId cashierId cashierName now cashierId' cashierName' now' : string) :
  completeSale st saleId cashierId cashierName now = (st1, inr sale1) ->
  completeSale st1 saleId cashierId' cashierName' now'
  = (st1, inl SaleAlreadyCompleted).
Proof.
  intros H. unfold completeSale in H.
  destruct (sales st !! saleId) as [sale|]; [|discriminate].
  destruct (decide (Sale.status sale = COMPLETED)); [discriminate|].
  destruct (decrementStock _ _) as [prods [e|]]; [discriminate|].
  injection H as <- <-.
  unfold completeSale. simpl. rewrite lookup_insert_eq. reflexivity.
Qed.

Lemma completeSale_twice_witness :
  exists st1,
    fst (completeSale store0 "s1" "c1" "Cashier" "t") = st1 /\
    completeSale st1 "s1" "c2" "Other" "t2" = (st1, inl SaleAlreadyCompleted).
Proof.
  destruct (completeSale store0 "s1" "c1" "Cashier" "t") as [st1 [e|sale1]] eqn:E;
    [vm_compute in E; discriminate E|].
  exists st1. split; [reflexivity|].
  exact (completeSale_twice store0 st1 sale1 "s1" "c1" "Cashier" "t"
           "c2" "Other" "t2" E).
Defined.

(** X20. Cancelling an order twice restores its quantities only once:
    after a cancellation the order is Cancelled, and a further
    cancellation succeeds again but leaves the product table as it is. *)
Theorem cancelSale_twice (st : Store) (saleId : string) (sale : Sale.t) :
  sales st !! saleId = Some sale ->
  let st1 := fst (cancelSale st saleId) in
  exists sale2,
    cancelSale st1 saleId = (st1, inr sale2) /\
    Sale.status sale2 = CANCELLED /\
    products (fst (cancelSale st1 saleId)) = products st1.
Proof.
  intros H st1. subst st1. unfold cancelSale. rewrite H. simpl.
  rewrite lookup_insert_eq. simpl. rewrite insert_insert_eq.
  eexists. split; [reflexivity|]. split; reflexivity.
Qed.

Lemma cancelSale_twice_witness :
  products (fst (cancelSale (fst (cancelSale store0 "s2")) "s2"))
  = products (fst (cancelSale store0 "s2")).
Proof.
  destruct (cancelSale_twice store0 "s2" (order_in COMPLETED "s2" 0) eq_refl)
    as (sale2 & _ & _ & H).
  exact H.
Defined.

(** ** Completion: what is written *)

Lemma finalItems_guard_off (sale : Sale.t) :
  (truthy (Sale.discount sale) && Qltb 0 (Sale.discount sale)
   && Qltb 0 (subTotal (Sale.items sale))) = false ->
  finalItems sale = Sale.items sale /\ finalDiscount sale = Sale.discount sale.
Proof.
  unfold finalItems, finalDiscount, subTotal.
  destruct (truthy _ && Qltb 0 (Sale.discount sale)); [|split; reflexivity].
  simpl. intros ->. split; reflexivity.
Qed.

Lemma guard_on (sale : Sale.t) :
  (truthy (Sale.discount sale) && Qltb 0 (Sale.discount sale)
   && Qltb 0 (subTotal (Sale.items sale))) = true ->
  0 < Sale.discount sale /\ 0 < subTotal (Sale.items sale).
Proof.
  rewrite !andb_true_iff. intros [[_ H1] H2].
  apply Qltb_true in H1, H2. split; assumption.
Qed.

(** X22. Completing an order writes its status, cashier, completion
    time, lines and discount and nothing else: the stored total,
    freight, other costs, payments, seller and identifier are kept, and
    every other order is as it was. *)
Theorem completeSale_keeps_stored_total (st st' : Store)
    (saleId cashierId cashierName now : string) (sale sale' : Sale.t) :
  sales st !! saleId = Some sale ->
  completeSale st saleId cashierId cashierName now = (st', inr sale') ->
  Sale.totalValue sale' = Sale.totalValue sale /\
  Sale.freight sale' = Sale.freight sale /\
  Sale.otherCosts sale' = Sale.otherCosts sale /\
  Sale.payments sale' = Sale.payments sale /\
  Sale.sellerId sale' = Sale.sellerId sale /\
  Sale.id sale' = Sale.id sale /\
  (forall other, other <> saleId -> sales st' !! other = sales st !! other).
Proof.
  intros Hsale H. unfold completeSale in H. rewrite Hsale in H.
  destruct (decide (Sale.status sale = COMPLETED)); [discriminate|].
  destruct (decrementStock _ _) as [prods [e|]]; [discriminate|].
  injection H as <- <-. simpl. repeat (split; [reflexivity|]).
  intros other Hne. apply lookup_insert_ne. congruence.
Qed.

Lemma completeSale_keeps_stored_total_witness :
  exists sale',
    snd (completeSale store0 "s1" "c1" "Cashier" "t") = inr sale' /\
    Sale.totalValue sale' = 30.
Proof.
  destruct (completeSale store0 "s1" "c1" "Cashier" "t") as [st' [e|sale']] eqn:Hrun;
    [vm_compute in Hrun; discriminate Hrun|].
  exists sale'. split; [reflexivity|].
  destruct (completeSale_keeps_stored_total store0 st' "s1" "c1" "Cashier" "t"
              (order_in PENDING "s1" 3) sale' eq_refl Hrun) as (Ht & _).
  rewrite Ht. reflexivity.
Defined.

(** X23. A discount of at most the subtotal never raises a price and
    never makes one negative: when an order with such a discount and
    with prices that are not negative is completed, every line is
    written with a unit price between zero and the price it had. *)
Theorem finalItems_price_bounds (sale : Sale.t) :
  0 <= Sale.discount sale ->
  Sale.discount sale <= subTotal (Sale.items sale) ->
  Forall (fun i => 0 <= SaleItem.unitPrice i) (Sale.items sale) ->
  Forall2 (fun item item' =>
             0 <= SaleItem.unitPrice item' /\
             SaleItem.unitPrice item' <= SaleItem.unitPrice item)
          (Sale.items sale) (finalItems sale).
Proof.
  intros Hd0 HdS Hp.
  destruct (truthy (Sale.discount sale) && Qltb 0 (Sale.discount sale)
            && Qltb 0 (subTotal (Sale.items sale))) eqn:G.
  - apply guard_on in G. destruct G as [Hd Hs].
    destruct (finalItems_positive sale Hd Hs) as [-> _].
    set (S := subTotal (Sale.items sale)) in *.
    assert (Hf0 : 0 <= (S - Sale.discount sale) / S).
    { apply Qle_shift_div_l; [exact Hs | lra]. }
    assert (Hf1 : (S - Sale.discount sale) / S <= 1).
    { apply Qle_shift_div_r; [exact Hs | lra]. }
    generalize dependent ((S - Sale.discount sale) / S). intros factor Hf0 Hf1.
    clear -Hp Hf0 Hf1.
    induction Hp as [|item rest Hi _ IH]; simpl; constructor; [|exact IH].
    simpl. split.
    + apply Qmult_le_0_compat; assumption.
    + assert (H : SaleItem.unitPrice item * factor <= SaleItem.unitPrice item * 1).
      { rewrite !(Qmult_comm (SaleItem.unitPrice item)).
        apply Qmult_le_compat_r; assumption. }
      lra.
  - apply finalItems_guard_off in G. destruct G as [-> _].
    clear -Hp. induction Hp; constructor; [lra | assumption].
Qed.

Lemma finalItems_price_bounds_witness :
  Forall2 (fun item item' =>
             0 <= SaleItem.unitPrice item' /\
             SaleItem.unitPrice item' <= SaleItem.unitPrice item)
          cart_10pct (finalItems (order_in PENDING "s1" 3)).
Proof.
  apply (finalItems_price_bounds (order_in PENDING "s1" 3)).
  - vm_compute. discriminate.
  - vm_compute. discriminate.
  - repeat constructor. vm_compute. discriminate.
Defined.

(** ** The catalogue *)

(** X25. [toggleProductActive] fails without a write when the product
    does not exist.  Otherwise it flips the active flag of that product
    and changes nothing else, neither its stock or price nor any order;
    toggling a second time gives back the store as it was. *)
Theorem toggleProductActive_twice (st : Store) (id : string) :
  (products st !! id = None ->
   toggleProductActive st id = (st, inl NoSuchRow)) /\
  (forall p, products st !! id = Some p ->
     exists st1 row,
       toggleProductActive st id = (st1, inr row) /\
       products st1 !! id = Some row /\
       Product.active row = negb (Product.active p) /\
       Product.stock row = Product.stock p /\
       Product.price row = Product.price p /\
       sales st1 = sales st /\
       (forall other, other <> id -> products st1 !! other = products st !! other) /\
       fst (toggleProductActive st1 id) = st).
Proof.
  unfold toggleProductActive. split.
  - intros H. rewrite H. reflexivity.
  - intros p H. rewrite H. eexists _, _. split; [reflexivity|]. simpl.
    split; [apply lookup_insert_eq|]. repeat (split; [reflexivity|]).
    split; [intros other Hne; apply lookup_insert_ne; congruence|].
    rewrite lookup_insert_eq. simpl. rewrite insert_insert_eq.
    destruct st as [prods sls]. simpl in *. f_equal.
    apply insert_id. rewrite H. f_equal.
    destruct p. unfold with_active. simpl. now rewrite negb_involutive.
Qed.

Lemma toggleProductActive_twice_witness :
  fst (toggleProductActive (fst (toggleProductActive store0 "p1")) "p1") = store0.
Proof.
  destruct (proj2 (toggleProductActive_twice store0 "p1") widget eq_refl)
    as (st1 & row & Hrun & _ & _ & _ & _ & _ & _ & Hback).
  rewrite Hrun. exact Hback.
Defined.

(** X26. A product that was deleted stays absent: completing or
    cancelling orders afterwards, also orders with lines for it, never
    brings its row back; the deletion itself leaves the orders and their
    lines as they were. *)
Theorem deleteProduct_stays_deleted (st : Store) (pid : string)
    (saleId cashierId cashierName now : string) :
  let st1 := deleteProduct st pid in
  sales st1 = sales st /\
  products st1 !! pid = None /\
  products (fst (completeSale st1 saleId cashierId cashierName now)) !! pid = None /\
  products (fst (cancelSale st1 saleId)) !! pid = None.
Proof.
  intros st1.
  assert (Hgone : products st1 !! pid = None) by apply lookup_delete_eq.
  split; [reflexivity|]. split; [exact Hgone|].
  assert (Hkept : forall after, rows_kept (products st1) after -> after !! pid = None).
  { intros after Hk. specialize (Hk pid). rewrite Hgone in Hk.
    destruct (after !! pid); [contradiction | reflexivity]. }
  split; apply Hkept.
  - unfold completeSale. destruct (sales st1 !! saleId) as [sale|];
      [|apply rows_kept_refl].
    destruct (decide (Sale.status sale = COMPLETED)); [apply rows_kept_refl|].
    pose proof (decrementStock_rows_kept (finalItems sale) (products st1)) as H.
    destruct (decrementStock _ _) as [prods [e|]]; exact H.
  - unfold cancelSale. destruct (sales st1 !! saleId) as [sale|];
      [|apply rows_kept_refl]. simpl.
    destruct (decide (Sale.status sale = COMPLETED)); [|apply rows_kept_refl].
    apply restoreStock_rows_kept.
Qed.

(** ** Units of measure *)

(** X27. [toggleUnitActive] flips the active flag of the units with the
    given code and keeps the codes, names and order of the list; a code
    that no unit has changes nothing; toggling the same code a second
    time gives back the list as it was.  Without a saved list it starts
    from the default units. *)
Theorem toggleUnitActive_twice (code : string) (stored : option (list UnitConfig)) :
  let '(stored1, units1) := toggleUnitActive code stored in
  stored1 = Some units1 /\
  map uc_code units1 = map uc_code (getUnits stored) /\
  map uc_name units1 = map uc_name (getUnits stored) /\
  (forall i u, getUnits stored !! i = Some u ->
     exists u1, units1 !! i = Some u1 /\
       uc_active u1 = if decide (uc_code u = code)
                      then negb (uc_active u) else uc_active u) /\
  (Forall (fun u => uc_code u <> code) (getUnits stored) ->
   units1 = getUnits stored) /\
  snd (toggleUnitActive code stored1) = getUnits stored.
Proof.
  unfold toggleUnitActive. simpl.
  set (flip := fun u => if decide (uc_code u = code)
                        then mkUnitConfig (uc_code u) (uc_name u) (negb (uc_active u))
                        else u).
  split; [reflexivity|].
  split; [rewrite map_map; apply map_ext; intros u; unfold flip;
          destruct (decide _); reflexivity|].
  split; [rewrite map_map; apply map_ext; intros u; unfold flip;
          destruct (decide _); reflexivity|].
  split.
  { intros i u Hu. exists (flip u). split.
    - rewrite list_lookup_fmap_Some. exists u. split; [reflexivity | exact Hu].
    - unfold flip. destruct (decide _); reflexivity. }
  split.
  { intros H. induction H as [|u l Hu _ IH]; simpl; [reflexivity|].
    rewrite IH. unfold flip. destruct (decide _); [contradiction | reflexivity]. }
  rewrite map_map. rewrite <- (map_id (getUnits stored)) at 2.
  apply map_ext. intros u. unfold flip.
  destruct (decide (uc_code u = code)) as [E|E]; simpl.
  - destruct (decide (uc_code u = code)); [|contradiction].
    destruct u. simpl. now rewrite negb_involutive.
  - destruct (decide (uc_code u = code)); [contradiction | reflexivity].
Qed.

Lemma toggleUnitActive_twice_witness :
  snd (toggleUnitActive "KG" None) !! 1%nat
  = Some (mkUnitConfig "KG" "Quilograma" false).
Proof.
  pose proof (toggleUnitActive_twice "KG" None) as H.
  destruct (toggleUnitActive "KG" None) as [stored1 units1] eqn:E.
  destruct H as (_ & _ & _ & H & _).
  destruct (H 1%nat (mkUnitConfig "KG" "Quilograma" true) eq_refl)
    as (u1 & Hu1 & Hact).
  simpl. rewrite Hu1. f_equal.
  vm_compute in E. injection E as _ <-. vm_compute in Hu1.
  now injection Hu1 as <-.
Defined.

(** ** Further instances *)

Lemma openDiscountModal_confirm_witness :
  snd (confirmDiscount cart_10pct 3
         (openDiscountModal false cart_10pct 3 (mkDiscountModal false 0 0 token_mgr1)))
  = Some (MsgDiscountNeedsToken (effectivePercent cart_10pct 3)).
Proof.
  apply (proj1 (proj2 (openDiscountModal_confirm cart_10pct 3
                         (mkDiscountModal false 0 0 token_mgr1)))).
  reflexivity.
Defined.
